(** * react-storefront service worker: a shallow embedding

    The development follows [src/service-worker/service-worker.js]:
    the runtime-route predicate ([matchRuntimePath]), the runtime-route
    handler registered with [registerRoute], the [message] listener, the
    cache sweep of the [install] listener and [configureRuntimeCaching].

    JavaScript values are kept as the code uses them: strings, header maps,
    [null]/[undefined] as [option], exceptions as [Throw], settled promises
    as [Resolved]/[Rejected].  Cache Storage is a finite map from cache names
    to finite maps from request URLs to stored responses.  Everything the
    file imports is gathered in the record [Collaborators]. *)

From Stdlib Require Import String Ascii List Bool ZArith Lia.
From stdpp Require Import gmap strings list fin_maps.
Import ListNotations.
Open Scope string_scope.

(* ================================================================== *)
(** ** JavaScript values, completions and promises                     *)
(* ================================================================== *)

Inductive JsValue :=
| JsUndefined
| JsNull
| JsBool (b : bool)
| JsNumber (n : Z)
| JsString (s : string)
| JsObject.

(** ToBoolean. *)
Definition truthy (v : JsValue) : bool :=
  match v with
  | JsUndefined | JsNull => false
  | JsBool b => b
  | JsNumber n => negb (n =? 0)%Z
  | JsString s => negb (String.eqb s "")
  | JsObject => true
  end.

(** [v === lit] for a string literal [lit]. *)
Definition strict_eq_string (v : JsValue) (lit : string) : bool :=
  match v with
  | JsString s => String.eqb s lit
  | _ => false
  end.

(** Truthiness of what [headers.get(name)] returns: [null] and the empty
    string are falsy. *)
Definition truthy_header (o : option string) : bool :=
  match o with
  | Some s => negb (String.eqb s "")
  | None => false
  end.

Inductive JsError :=
| ReferenceError (ident : string)
| TypeError (msg : string)
| WorkboxError (code : string)
| OtherError (msg : string).

(** Result of running a synchronous piece of code. *)
Inductive Completion (A : Type) :=
| Normal (a : A)
| Throw (e : JsError).
Arguments Normal {A} a.
Arguments Throw {A} e.

(** A settled promise. *)
Inductive Promise (A : Type) :=
| Resolved (a : A)
| Rejected (e : JsError).
Arguments Resolved {A} a.
Arguments Rejected {A} e.

Definition promise_map {A B} (f : A -> B) (p : Promise A) : Promise B :=
  match p with
  | Resolved a => Resolved (f a)
  | Rejected e => Rejected e
  end.

(* ================================================================== *)
(** ** Strings the way the code tests them                             *)
(* ================================================================== *)

(** [strip_prefix p s] is [Some rest] when [s] is [p] followed by [rest]. *)
Fixpoint strip_prefix (p s : string) : option string :=
  match p with
  | EmptyString => Some s
  | String a p' =>
      match s with
      | EmptyString => None
      | String b s' => if Ascii.eqb a b then strip_prefix p' s' else None
      end
  end.

(** [s.startsWith(p)]. *)
Definition startsWith (s p : string) : bool := String.prefix p s.

(** [s] ends with [suf]: some tail of [s] is [suf]. *)
Fixpoint endsWith (s suf : string) : bool :=
  String.eqb s suf ||
  match s with
  | EmptyString => false
  | String _ s' => endsWith s' suf
  end.

Fixpoint contains_char (c : ascii) (s : string) : bool :=
  match s with
  | EmptyString => false
  | String a s' => Ascii.eqb a c || contains_char c s'
  end.

(** Strings are kept as their UTF-8 bytes.  The regular-expression dot
    refuses the four line terminators: LF, CR, and U+2028 and U+2029, whose
    encodings are the bytes E2 80 A8 and E2 80 A9. *)
Definition line_separator : string :=
  String "226"%char (String "128"%char (String "168"%char EmptyString)).

Definition paragraph_separator : string :=
  String "226"%char (String "128"%char (String "169"%char EmptyString)).

(** A line terminator starts at the head of [s]. *)
Definition line_terminator (s : string) : bool :=
  String.prefix (String "010"%char EmptyString) s ||
  String.prefix (String "013"%char EmptyString) s ||
  String.prefix line_separator s ||
  String.prefix paragraph_separator s.

(** The rest of the string is matched by a run of dots: no line terminator
    starts anywhere in it. *)
Fixpoint dot_star_to_end (s : string) : bool :=
  match s with
  | EmptyString => true
  | String a s' => negb (line_terminator s) && dot_star_to_end s'
  end.

(** An unanchored regular-expression search: the pattern, given as a test
    of "matches starting exactly here", is tried at every position. *)
Fixpoint regex_search (here : string -> bool) (s : string) : bool :=
  here s ||
  match s with
  | EmptyString => false
  | String _ s' => regex_search here s'
  end.

(** The pattern of [isVideo] tried at the head of [s]: a literal ".mp4",
    then either the end of the string or a question mark followed by any
    run of characters other than line terminators up to the end. *)
Definition mp4_here (s : string) : bool :=
  match strip_prefix ".mp4" s with
  | Some EmptyString => true
  | Some (String c rest) => Ascii.eqb c "?"%char && dot_star_to_end rest
  | None => false
  end.

(* ================================================================== *)
(** ** Requests, responses, the routing context                        *)
(* ================================================================== *)

(** The fields of a [URL] object the worker reads, and [port], which is part
    of the origin. *)
Record URL := {
  protocol : string;
  hostname : string;
  port : string;
  pathname : string;
  search : string
}.

Definition origin (u : URL) : string :=
  protocol u ++ "//" ++ hostname u ++
  (if String.eqb (port u) "" then "" else ":" ++ port u).

(** The URL of the request without its fragment. *)
Definition href (u : URL) : string := origin u ++ pathname u ++ search u.

(** A URL as Cache Storage compares it: everything before the query, and
    the query.  Two URLs match when both parts are equal. *)
Definition request_key (u : URL) : string * string :=
  (origin u ++ pathname u, search u).

(** [event.request]: header names are kept in lower case. *)
Record Request := {
  req_headers : gmap string string;
  req_cache : string;
  req_mode : string
}.

(** The object workbox passes to a route predicate and to a route handler:
    [context.url] and [context.event.request]. *)
Record Context := {
  url : URL;
  request : Request
}.

Record Response := {
  resp_status : Z;
  resp_headers : gmap string string;
  resp_body : string
}.

(** A [Response] object: the body of an object can be read once, so objects
    carry an identity next to their content. *)
Record ResponseObj := {
  obj_id : nat;
  obj_response : Response
}.

Definition headers_get (h : gmap string string) (name : string) : option string :=
  h !! name.

(* ================================================================== *)
(** ** Request classifier                                              *)
(* ================================================================== *)

Definition isSecure (context : Context) : bool :=
  String.eqb (protocol (url context)) "https:" ||
  String.eqb (hostname (url context)) "localhost".

Definition isStaticAsset (context : Context) : bool :=
  startsWith (pathname (url context)) "/_next/static/".

Definition isVideo (context : Context) : bool :=
  regex_search mp4_here (pathname (url context)).

Definition matchRuntimePath (context : Context) : bool :=
  isSecure context && negb (isStaticAsset context) && negb (isVideo context).

(* ================================================================== *)
(** ** Worker state                                                    *)
(* ================================================================== *)

(** [new ExpirationPlugin({ maxEntries, maxAgeSeconds })]: the plugin
    holding the two values it was given, whatever they are. *)
Record ExpirationPlugin := {
  maxEntries : JsValue;
  maxAgeSeconds : JsValue
}.

(** The module-level [runtimeCacheOptions]; the empty object has no
    plugins. *)
Record RuntimeCacheOptions := {
  plugins : list ExpirationPlugin
}.

(** [{ ...runtimeCacheOptions, cacheName }]. *)
Record CacheOptions := {
  co_plugins : list ExpirationPlugin;
  cacheName : string
}.

(** The two properties [configureRuntimeCaching] reads off its argument;
    a missing property reads as [JsUndefined]. *)
Record ConfigOptions := {
  opt_maxEntries : JsValue;
  opt_maxAgeSeconds : JsValue
}.

(** The argument of [configureRuntimeCaching]: missing ([undefined]),
    [null], or a value whose properties can be read (an object; a number, a
    string or a boolean reads as an object without the two properties). *)
Inductive OptionsArg :=
| OptionsUndefined
| OptionsNull
| OptionsObject (o : ConfigOptions).

(** Modelled from the spec: [./prefetch] is not among the sources; the
    spec's data model gives the queue as an ordered sequence of tasks and a
    [suspended] flag. *)
Inductive TaskStatus := Pending | InFlight | Done | Aborted | Failed.

Record PrefetchTask := {
  task_path : option string;
  task_isPage : bool;
  task_status : TaskStatus
}.

Record PrefetchQueueState := {
  tasks : list PrefetchTask;
  suspended : bool
}.

(** [event.data] of a control message when it is an object. *)
Record MessageData := {
  action : JsValue;
  path : option string;
  options : OptionsArg
}.

(** [event.data]: a primitive (including [undefined] and [null]) or an
    object. *)
Inductive EventData :=
| DataPrimitive (v : JsValue)
| DataObject (d : MessageData).

(** What the worker observably asks of its collaborators, in order. *)
Inductive Event :=
| EvPrefetch (p : option string) (flag : bool)
| EvCacheLookup (name key : string)
| EvNetwork (key : string)
| EvOffline (apiVersion : option string)
| EvCacheDelete (name : string)
| EvWarn
| EvLog (msg : string).

(** Work started without being awaited: [caches.open(cacheName).then(...)]
    of the runtime handler. *)
Inductive Job :=
| JobCachePut (name p : string) (res : ResponseObj).

Record World := {
  caches : gmap string (gmap (string * string) Response);
  runtimeCacheOptions : RuntimeCacheOptions;
  prefetchQueue : PrefetchQueueState;
  bodyUsed : gmap nat bool;
  nextId : nat;
  pending : list Job;
  trace : list Event
}.

Definition set_caches (c : gmap string (gmap (string * string) Response)) (w : World)
  : World :=
  {| caches := c; runtimeCacheOptions := runtimeCacheOptions w;
     prefetchQueue := prefetchQueue w; bodyUsed := bodyUsed w;
     nextId := nextId w; pending := pending w; trace := trace w |}.

Definition set_runtimeCacheOptions (o : RuntimeCacheOptions) (w : World) : World :=
  {| caches := caches w; runtimeCacheOptions := o;
     prefetchQueue := prefetchQueue w; bodyUsed := bodyUsed w;
     nextId := nextId w; pending := pending w; trace := trace w |}.

Definition set_prefetchQueue (q : PrefetchQueueState) (w : World) : World :=
  {| caches := caches w; runtimeCacheOptions := runtimeCacheOptions w;
     prefetchQueue := q; bodyUsed := bodyUsed w;
     nextId := nextId w; pending := pending w; trace := trace w |}.

Definition set_bodyUsed (b : gmap nat bool) (w : World) : World :=
  {| caches := caches w; runtimeCacheOptions := runtimeCacheOptions w;
     prefetchQueue := prefetchQueue w; bodyUsed := b;
     nextId := nextId w; pending := pending w; trace := trace w |}.

Definition set_nextId (n : nat) (w : World) : World :=
  {| caches := caches w; runtimeCacheOptions := runtimeCacheOptions w;
     prefetchQueue := prefetchQueue w; bodyUsed := bodyUsed w;
     nextId := n; pending := pending w; trace := trace w |}.

Definition set_pending (js : list Job) (w : World) : World :=
  {| caches := caches w; runtimeCacheOptions := runtimeCacheOptions w;
     prefetchQueue := prefetchQueue w; bodyUsed := bodyUsed w;
     nextId := nextId w; pending := js; trace := trace w |}.

Definition log_event (ev : Event) (w : World) : World :=
  {| caches := caches w; runtimeCacheOptions := runtimeCacheOptions w;
     prefetchQueue := prefetchQueue w; bodyUsed := bodyUsed w;
     nextId := nextId w; pending := pending w;
     trace := (trace w ++ [ev])%list |}.

Definition spawn (j : Job) (w : World) : World :=
  set_pending (pending w ++ [j])%list w.

(** A fresh [Response] object with an unread body. *)
Definition new_response (r : Response) (w : World) : ResponseObj * World :=
  ({| obj_id := nextId w; obj_response := r |},
   set_nextId (S (nextId w)) (set_bodyUsed (<[nextId w := false]> (bodyUsed w)) w)).

Definition body_unread (w : World) (o : ResponseObj) : bool :=
  match bodyUsed w !! obj_id o with
  | Some false => true
  | _ => false
  end.

(** [res.clone()]: a second object with the same content; it throws when
    the body was already read. *)
Definition clone (o : ResponseObj) (w : World) : World * Completion ResponseObj :=
  if body_unread w o then
    let '(o', w') := new_response (obj_response o) w in (w', Normal o')
  else (w, Throw (TypeError "Response body is already used")).

(** Reading the body of a response object (what the page does with the
    response it is handed). *)
Definition read_body (o : ResponseObj) (w : World) : World * Promise string :=
  if body_unread w o then
    (set_bodyUsed (<[obj_id o := true]> (bodyUsed w)) w,
     Resolved (resp_body (obj_response o)))
  else (w, Rejected (TypeError "body stream already read")).

(* ================================================================== *)
(** ** Collaborators                                                   *)
(* ================================================================== *)

(** What the file imports and what the platform answers.  [Collaborators]
    fixes none of it: every statement below is for all collaborators. *)
Record Collaborators := {
  (** [s.match(IS_AMP_REGEX)] finds a match ([./environment]). *)
  IS_AMP_REGEX : string -> bool;
  (** [./cache]: the cache name of an API version, [null] when the header
      is missing. *)
  getAPICacheName : option string -> string;
  (** [./prefetch]: each call may throw. *)
  prefetch : MessageData -> bool -> PrefetchQueueState -> Completion PrefetchQueueState;
  abortPrefetches : PrefetchQueueState -> Completion PrefetchQueueState;
  resumePrefetches : PrefetchQueueState -> Completion PrefetchQueueState;
  (** Modelled from the spec: [./offline] is not among the sources; the
      spec gives the offline-fallback generator as a function from the API
      version and the request context to a response. *)
  offlineResponse : option string -> Context -> Response;
  (** What [new NetworkOnly().handle(context)] settles to. *)
  fetch_network : Context -> Promise Response;
  (** The read-side callback of the plugins handed to [CacheOnly]: whether
      a stored response may still be used. *)
  cachedResponseWillBeUsed : list ExpirationPlugin -> Response -> bool;
  (** [self.location.origin]: a path given to [cache.put] is resolved
      against it. *)
  self_origin : string;
  (** URL resolution against [self.location] of a reference that is not a
      plain absolute path (one starting with two slashes names another host):
      the resolved URL up to its query, or nothing when the reference is not
      a valid URL. *)
  resolve_reference : string -> option string
}.

(* ================================================================== *)
(** ** configureRuntimeCaching                                         *)
(* ================================================================== *)

(** A default in a destructuring pattern: it replaces [undefined] and
    nothing else ([null] stays [null]). *)
Definition or_default (dflt : Z) (v : JsValue) : JsValue :=
  match v with
  | JsUndefined => JsNumber dflt
  | _ => v
  end.

(** A setting the expiration plugin accepts in every build of workbox: a
    missing one or a positive number. *)
Definition valid_setting (v : JsValue) : bool :=
  match v with
  | JsUndefined => true
  | JsNumber n => (0 <? n)%Z
  | _ => false
  end.

(** The parameter pattern [{ maxEntries = 200, maxAgeSeconds = ... } = {}]:
    the default [{}] replaces a missing argument, and [null] cannot be
    destructured. *)
Definition destructure_options (arg : OptionsArg) : option ConfigOptions :=
  match arg with
  | OptionsUndefined =>
      Some {| opt_maxEntries := JsUndefined; opt_maxAgeSeconds := JsUndefined |}
  | OptionsNull => None
  | OptionsObject o => Some o
  end.

(** [configureRuntimeCaching]: a [TypeError] before the body runs when the
    argument cannot be destructured; otherwise the log line and the
    assignment to [runtimeCacheOptions]. *)
Definition configureRuntimeCaching (arg : OptionsArg) (w : World)
  : World * Completion unit :=
  match destructure_options arg with
  | None => (w, Throw (TypeError "Cannot destructure property of null"))
  | Some o =>
      (set_runtimeCacheOptions
         {| plugins :=
              [ {| maxEntries := or_default 200 (opt_maxEntries o);
                   maxAgeSeconds := or_default (60 * 60 * 24) (opt_maxAgeSeconds o) |} ] |}
         (log_event (EvLog "configureRuntimeCaching") w),
       Normal tt)
  end.

(* ================================================================== *)
(** ** The message listener                                            *)
(* ================================================================== *)

Definition lift_queue (c : Completion PrefetchQueueState) (w : World)
  : World * Completion unit :=
  match c with
  | Normal q => (set_prefetchQueue q w, Normal tt)
  | Throw e => (w, Throw e)
  end.

Definition call_prefetch (E : Collaborators) (d : MessageData) (flag : bool) (w : World)
  : World * Completion unit :=
  let w1 := log_event (EvPrefetch (path d) flag) w in
  lift_queue (prefetch E d flag (prefetchQueue w1)) w1.

(** The functions in module scope that the listener calls by name: the
    three imports from [./prefetch].  The file imports or declares no other
    function of the names used in the listener, except
    [configureRuntimeCaching], declared above. *)
Definition module_function (E : Collaborators) (f : string)
  : option (MessageData -> World -> World * Completion unit) :=
  if String.eqb f "prefetch" then
    Some (fun d w => call_prefetch E d false w)
  else if String.eqb f "abortPrefetches" then
    Some (fun _ w => lift_queue (abortPrefetches E (prefetchQueue w)) w)
  else if String.eqb f "resumePrefetches" then
    Some (fun _ w => lift_queue (resumePrefetches E (prefetchQueue w)) w)
  else None.

(** Calling an identifier: an unbound one raises a [ReferenceError]. *)
Definition call (E : Collaborators) (f : string) (d : MessageData) (w : World)
  : World * Completion unit :=
  match module_function E f with
  | Some fn => fn d w
  | None => (w, Throw (ReferenceError f))
  end.

Definition on_message (E : Collaborators) (data : EventData) (w : World)
  : World * Completion unit :=
  match data with
  | DataPrimitive _ => (w, Normal tt)
  | DataObject d =>
      if truthy (action d) then
        if strict_eq_string (action d) "cache-path" then
          call E "prefetch" d w
        else if strict_eq_string (action d) "cache-state" then
          call E "cacheState" d w
        else if strict_eq_string (action d) "configure-runtime-caching" then
          configureRuntimeCaching (options d) w
        else if strict_eq_string (action d) "abort-prefetches" then
          call E "abortPrefetches" d w
        else if strict_eq_string (action d) "resume-prefetches" then
          call E "resumePrefetches" d w
        else (w, Normal tt)
      else (w, Normal tt)
  end.

Definition recognized_action (v : JsValue) : bool :=
  strict_eq_string v "cache-path" ||
  strict_eq_string v "cache-state" ||
  strict_eq_string v "configure-runtime-caching" ||
  strict_eq_string v "abort-prefetches" ||
  strict_eq_string v "resume-prefetches".

(** The message shapes the listener does not recognise: no data or data
    that is not an object, no (truthy) [action], or an [action] that is none
    of the five. *)
Definition unrecognized (data : EventData) : bool :=
  match data with
  | DataPrimitive _ => true
  | DataObject d => negb (truthy (action d)) || negb (recognized_action (action d))
  end.

(* ================================================================== *)
(** ** The cache sweep of the install listener                         *)
(* ================================================================== *)

(** [for (let key of keys) if (!key.startsWith('workbox-precache'))
    caches.delete(key)]. *)
Fixpoint sweep (keys : list string) (w : World) : World :=
  match keys with
  | [] => w
  | key :: rest =>
      if negb (startsWith key "workbox-precache") then
        sweep rest (log_event (EvCacheDelete key) (set_caches (delete key (caches w)) w))
      else sweep rest w
  end.

(** [caches.keys()]: the names of the existing caches.  The platform lists
    them in the order in which the caches were created, which the store does
    not record; the names are listed here in the order of the finite map,
    and nothing below is stated about the order of the sweep's deletions
    (the outcome of a sweep is the same for every order, see
    [sweep_any_order]). *)
Definition caches_keys (w : World) : list string := elements (dom (caches w)).

Definition on_install (w : World) : World := sweep (caches_keys w) w.

(* ================================================================== *)
(** ** Promise chains over the worker state                            *)
(* ================================================================== *)

(** An asynchronous computation run to its settled promise. *)
Definition Async (A : Type) : Type := World -> World * Promise A.

(** [m.catch(h)]. *)
Definition promise_catch {A} (m : Async A) (h : JsError -> Async A) : Async A :=
  fun w =>
    match m w with
    | (w', Resolved a) => (w', Resolved a)
    | (w', Rejected e) => h e w'
    end.

(** [m.then(f)]: an exception thrown by the callback rejects the result. *)
Definition promise_then {A B} (m : Async A)
    (f : A -> World -> World * Completion B) : Async B :=
  fun w =>
    match m w with
    | (w', Resolved a) =>
        match f a w' with
        | (w'', Normal b) => (w'', Resolved b)
        | (w'', Throw e) => (w'', Rejected e)
        end
    | (w', Rejected e) => (w', Rejected e)
    end.

(** [new NetworkOnly().handle(context)]. *)
Definition NetworkOnly_handle (E : Collaborators) (context : Context) : Async ResponseObj :=
  fun w =>
    let w1 := log_event (EvNetwork (href (url context))) w in
    match fetch_network E context with
    | Resolved r => let '(o, w2) := new_response r w1 in (w2, Resolved o)
    | Rejected e => (w1, Rejected e)
    end.

(** What the cache named [name] holds for the request of [context]. *)
Definition cache_match (c : gmap string (gmap (string * string) Response)) (name : string)
    (context : Context) : option Response :=
  c !! name ≫= (fun entries => entries !! request_key (url context)).

(** The stored response [CacheOnly] can answer with: the entry matching the
    request, if the plugins let it through. *)
Definition usable_entry (E : Collaborators) (cacheOptions : CacheOptions)
    (context : Context) (w : World) : option Response :=
  match cache_match (caches w) (cacheName cacheOptions) context with
  | Some r =>
      if cachedResponseWillBeUsed E (co_plugins cacheOptions) r then Some r else None
  | None => None
  end.

(** [new CacheOnly(cacheOptions).handle(context)]: the stored response when
    there is a usable one, a rejection otherwise. *)
Definition CacheOnly_handle (E : Collaborators) (cacheOptions : CacheOptions)
    (context : Context) : Async ResponseObj :=
  fun w =>
    let w1 := log_event (EvCacheLookup (cacheName cacheOptions) (href (url context))) w in
    match usable_entry E cacheOptions context w1 with
    | Some r => let '(o, w2) := new_response r w1 in (w2, Resolved o)
    | None => (w1, Rejected (WorkboxError "no-response"))
    end.

(** [offlineResponse(apiVersion, context)]. *)
Definition offline (E : Collaborators) (apiVersion : option string)
    (context : Context) : Async ResponseObj :=
  fun w =>
    let '(o, w') :=
      new_response (offlineResponse E apiVersion context)
                   (log_event (EvOffline apiVersion) w) in
    (w', Resolved o).

(* ================================================================== *)
(** ** Detached cache writes                                           *)
(* ================================================================== *)

(** [caches.open(name)] creates the cache when it does not exist. *)
Definition caches_open (name : string) (w : World) : World :=
  match caches w !! name with
  | Some _ => w
  | None => set_caches (<[name := ∅]> (caches w)) w
  end.

(** A path that URL resolution keeps on the worker's own origin: a slash
    not followed by a second slash or a backslash. *)
Definition plain_absolute_path (p : string) : bool :=
  match p with
  | String a rest =>
      Ascii.eqb a "/"%char &&
      match rest with
      | EmptyString => true
      | String b _ => negb (Ascii.eqb b "/"%char || Ascii.eqb b "\"%char)
      end
  | EmptyString => false
  end.

(** The URL under which [cache.put(p, res)] stores, for [p] the pathname of
    a URL object (which holds no query and no fragment): [p] resolved against
    the worker's location, with no query. *)
Definition put_key (E : Collaborators) (p : string) : option (string * string) :=
  match (if plain_absolute_path p then Some (self_origin E ++ p)
         else resolve_reference E p) with
  | Some base => Some (base, "")
  | None => None
  end.

Fixpoint split_on (c : ascii) (s : string) : list string :=
  match s with
  | EmptyString => [EmptyString]
  | String a s' =>
      if Ascii.eqb a c then EmptyString :: split_on c s'
      else
        match split_on c s' with
        | t :: ts => String a t :: ts
        | [] => [String a EmptyString]
        end
  end.

Definition is_space (a : ascii) : bool :=
  Ascii.eqb a " "%char || Ascii.eqb a "009"%char.

Fixpoint trim_left (s : string) : string :=
  match s with
  | String a s' => if is_space a then trim_left s' else s
  | EmptyString => s
  end.

Fixpoint trim_right (s : string) : string :=
  match s with
  | EmptyString => EmptyString
  | String a s' =>
      match trim_right s' with
      | EmptyString => if is_space a then EmptyString else String a EmptyString
      | t => String a t
      end
  end.

(** One of the comma-separated values of a [Vary] header is "*". *)
Definition vary_star (h : gmap string string) : bool :=
  match headers_get h "vary" with
  | Some v =>
      existsb (fun t => String.eqb (trim_right (trim_left t)) "*") (split_on ","%char v)
  | None => false
  end.

(** The responses [cache.put] refuses: a partial response (status 206) and
    one whose [Vary] header holds "*". *)
Definition put_refused (r : Response) : bool :=
  (resp_status r =? 206)%Z || vary_star (resp_headers r).

(** [cache.put(p, res)] on the cache [name].  The path is resolved to a
    URL; the put is rejected, and nothing is stored, when the path is not a
    valid URL, when the response is one the platform refuses, or when its
    body was already read.  Otherwise the body of [res] is read into the
    store and an entry with the same URL is replaced. *)
Definition cache_put (E : Collaborators) (name p : string) (res : ResponseObj)
    (w : World) : World :=
  match put_key E p with
  | Some key =>
      if negb (put_refused (obj_response res)) && body_unread w res then
        set_bodyUsed (<[obj_id res := true]> (bodyUsed w))
          (set_caches
             (<[name := <[key := obj_response res]>
                          (default ∅ (caches w !! name))]> (caches w)) w)
      else w
  | None => w
  end.

Definition run_job (E : Collaborators) (j : Job) (w : World) : World :=
  match j with
  | JobCachePut name p res =>
      log_event (EvLog ("caching " ++ p)) (cache_put E name p res (caches_open name w))
  end.

(** The detached work runs after the handler has returned. *)
Definition run_pending (E : Collaborators) (w : World) : World :=
  fold_left (fun w' j => run_job E j w') (pending w) (set_pending [] w).

(* ================================================================== *)
(** ** The runtime route handler                                       *)
(* ================================================================== *)

Definition isAmp (E : Collaborators) (u : URL) : bool :=
  IS_AMP_REGEX E (search u).

(** [if (isAmp(url)) prefetch({ path: url.pathname + url.search }, true)]. *)
Definition amp_step (E : Collaborators) (context : Context) (w : World)
  : World * Completion unit :=
  let u := url context in
  if isAmp E u then
    call_prefetch E
      {| action := JsUndefined; path := Some (pathname u ++ search u);
         options := OptionsUndefined |}
      true w
  else (w, Normal tt).

(** [event.request.cache === 'only-if-cached' &&
     event.request.mode !== 'same-origin']. *)
Definition only_if_cached_bypass (r : Request) : bool :=
  String.eqb (req_cache r) "only-if-cached" &&
  negb (String.eqb (req_mode r) "same-origin").

(** The callback of [.then] on the network response. *)
Definition on_api_response (E : Collaborators) (name : string) (u : URL)
    (apiRes : ResponseObj) (w : World) : World * Completion ResponseObj :=
  let w1 :=
    if truthy_header (headers_get (resp_headers (obj_response apiRes)) "x-sw-cache-control")
    then spawn (JobCachePut name (pathname u) apiRes) w
    else w in
  clone apiRes w1.

(** [event.request.headers.get('x-rsf-api-version')]. *)
Definition apiVersion_of (context : Context) : option string :=
  headers_get (req_headers (request context)) "x-rsf-api-version".

(** [{ ...runtimeCacheOptions, cacheName }] with
    [cacheName = getAPICacheName(apiVersion)]. *)
Definition cacheOptions_of (E : Collaborators) (context : Context) (w : World)
  : CacheOptions :=
  {| co_plugins := plugins (runtimeCacheOptions w);
     cacheName := getAPICacheName E (apiVersion_of context) |}.

(** The body of the [try] block.  [Normal p] is the promise it returns
    ([Resolved None] is the bare [return]); [Throw e] is an exception that
    leaves the block. *)
Definition handler_try (E : Collaborators) (context : Context) (w : World)
  : World * Completion (Promise (option ResponseObj)) :=
  let u := url context in
  match amp_step E context w with
  | (w1, Throw e) => (w1, Throw e)
  | (w1, Normal _) =>
      let apiVersion := apiVersion_of context in
      let name := getAPICacheName E apiVersion in
      let cacheOptions := cacheOptions_of E context w1 in
      if only_if_cached_bypass (request context) then (w1, Normal (Resolved None))
      else if negb (truthy_header apiVersion) then
        let '(w2, p) := NetworkOnly_handle E context w1 in
        (w2, Normal (promise_map Some p))
      else
        let '(w2, p) :=
          promise_catch
            (promise_catch
               (CacheOnly_handle E cacheOptions context)
               (fun _ =>
                  promise_then (NetworkOnly_handle E context)
                               (on_api_response E name u)))
            (fun _ => offline E apiVersion context) w1 in
        (w2, Normal (promise_map Some p))
  end.

(** The handler: the [try] block, and in its [catch] a warning followed by
    [new NetworkOnly().handle(context)]. *)
Definition handler (E : Collaborators) (context : Context) (w : World)
  : World * Promise (option ResponseObj) :=
  match handler_try E context w with
  | (w1, Normal p) => (w1, p)
  | (w1, Throw e) =>
      let '(w2, p) := NetworkOnly_handle E context (log_event EvWarn w1) in
      (w2, promise_map Some p)
  end.

(** The content of what the handler settles to, without object identity. *)
Definition settled_content (p : Promise (option ResponseObj)) : Promise (option Response) :=
  promise_map (option_map obj_response) p.

(** What a request that is not intercepted at all gets: the network's
    answer. *)
Definition pass_through (E : Collaborators) (context : Context) : Promise (option Response) :=
  promise_map Some (fetch_network E context).

Definition is_cache_lookup (ev : Event) : bool :=
  match ev with EvCacheLookup _ _ => true | _ => false end.

Definition is_network (ev : Event) : bool :=
  match ev with EvNetwork _ => true | _ => false end.

Definition is_prefetch (ev : Event) : bool :=
  match ev with EvPrefetch _ _ => true | _ => false end.

Definition events_where (f : Event -> bool) (w : World) : list Event :=
  List.filter f (trace w).

(** The prefetch call an AMP request makes, as it shows in the trace. *)
Definition amp_events (E : Collaborators) (context : Context) : list Event :=
  if isAmp E (url context) then
    [EvPrefetch (Some (pathname (url context) ++ search (url context))) true]
  else [].

(** The versioned branch written out: what the handler does once the AMP
    step has returned, for a request with a non-empty API version that does
    not take the only-if-cached exit.  [handler_versioned] below proves that
    the handler computes exactly this. *)
Definition versioned_outcome (E : Collaborators) (context : Context) (v : string)
    (w1 : World) : World * Promise (option ResponseObj) :=
  let name := getAPICacheName E (Some v) in
  let key := href (url context) in
  let wl := log_event (EvCacheLookup name key) w1 in
  match usable_entry E (cacheOptions_of E context w1) context w1 with
  | Some r =>
      (snd (new_response r wl), Resolved (Some (fst (new_response r wl))))
  | None =>
      let wn := log_event (EvNetwork key) wl in
      match fetch_network E context with
      | Resolved r =>
          let apiRes := fst (new_response r wn) in
          let wa := snd (new_response r wn) in
          let wa' :=
            if truthy_header (headers_get (resp_headers r) "x-sw-cache-control")
            then spawn (JobCachePut name (pathname (url context)) apiRes) wa
            else wa in
          (snd (new_response r wa'), Resolved (Some (fst (new_response r wa'))))
      | Rejected _ =>
          let wo := log_event (EvOffline (Some v)) wn in
          (snd (new_response (offlineResponse E (Some v) context) wo),
           Resolved (Some (fst (new_response (offlineResponse E (Some v) context) wo))))
      end
  end.

(* ================================================================== *)
(** ** Reference collaborators                                         *)
(* ================================================================== *)

(** Modelled from the spec: [./environment] is not among the sources; the
    spec calls [IS_AMP_REGEX] the AMP query parameter pattern, with
    [/foo?amp=1] as its example.  Tried at the head of [s]: a question mark
    or an ampersand, then "amp=1", then the end of the string or a further
    parameter. *)
Definition amp_here (s : string) : bool :=
  match s with
  | EmptyString => false
  | String c rest =>
      (Ascii.eqb c "?"%char || Ascii.eqb c "&"%char) &&
      match strip_prefix "amp=1" rest with
      | Some EmptyString => true
      | Some (String d more) => Ascii.eqb d "&"%char && dot_star_to_end more
      | None => false
      end
  end.

Definition amp_query_match (s : string) : bool := regex_search amp_here s.

(** Modelled from the spec: [./prefetch] is not among the sources; the spec
    gives enqueue as appending a task in the [Pending] state, abort as
    setting [suspended] and resume as clearing it. *)
Definition enqueue (d : MessageData) (isPage : bool) (q : PrefetchQueueState)
  : Completion PrefetchQueueState :=
  Normal {| tasks := (tasks q ++
                      [ {| task_path := path d; task_isPage := isPage;
                           task_status := Pending |} ])%list;
            suspended := suspended q |}.

Definition abortAll (q : PrefetchQueueState) : Completion PrefetchQueueState :=
  Normal {| tasks := tasks q; suspended := true |}.

Definition resumeAll (q : PrefetchQueueState) : Completion PrefetchQueueState :=
  Normal {| tasks := tasks q; suspended := false |}.

(** Modelled from the spec: [./cache] is not among the sources; the spec
    gives the cache namer as a total function into the "api" namespace with
    a default name for a missing version. *)
Definition nameFor (apiVersion : option string) : string :=
  match apiVersion with
  | Some v => "api-" ++ v
  | None => "api"
  end.

Definition offline_page : Response :=
  {| resp_status := 200; resp_headers := ∅; resp_body := "offline" |}.

Definition sample_response (context : Context) : Response :=
  {| resp_status := 200;
     resp_headers := {[ "x-sw-cache-control" := "max-age=60" ]};
     resp_body := "body of " ++ href (url context) |}.

(** A network that fails for the path [/down] and otherwise answers with a
    cacheable response whose body names the requested URL. *)
Definition sample_network (context : Context) : Promise Response :=
  if String.eqb (pathname (url context)) "/down" then
    Rejected (TypeError "Failed to fetch")
  else Resolved (sample_response context).

Definition sample_collaborators
    (pf : MessageData -> bool -> PrefetchQueueState -> Completion PrefetchQueueState)
  : Collaborators :=
  {| IS_AMP_REGEX := amp_query_match;
     getAPICacheName := nameFor;
     prefetch := pf;
     abortPrefetches := abortAll;
     resumePrefetches := resumeAll;
     offlineResponse := fun _ _ => offline_page;
     fetch_network := sample_network;
     cachedResponseWillBeUsed := fun _ _ => true;
     self_origin := "https://shop.example";
     resolve_reference :=
       fun p => if startsWith p "//" then Some ("https:" ++ p) else None |}.

Definition broken_prefetch (d : MessageData) (isPage : bool) (q : PrefetchQueueState)
  : Completion PrefetchQueueState :=
  Throw (OtherError "prefetch failed").

(** The worker after the module body has run: [runtimeCacheOptions] starts
    as the empty object and [configureRuntimeCaching()] is called once. *)
Definition initial_world : World :=
  fst (configureRuntimeCaching OptionsUndefined
         {| caches := ∅; runtimeCacheOptions := {| plugins := [] |};
            prefetchQueue := {| tasks := []; suspended := false |};
            bodyUsed := ∅; nextId := 0; pending := []; trace := [] |}).

Definition sample_url (p q : string) : URL :=
  {| protocol := "https:"; hostname := "shop.example"; port := "";
     pathname := p; search := q |}.

Definition sample_request (apiVersion : option string) (c m : string) : Request :=
  {| req_headers :=
       match apiVersion with
       | Some v => {[ "x-rsf-api-version" := v ]}
       | None => ∅
       end;
     req_cache := c; req_mode := m |}.

Definition sample_context (p q : string) (apiVersion : option string) (c m : string)
  : Context :=
  {| url := sample_url p q; request := sample_request apiVersion c m |}.

(** The worker with the spec's queue, and the worker whose [prefetch]
    throws. *)
Definition reference_worker : Collaborators := sample_collaborators enqueue.
Definition faulty_worker : Collaborators := sample_collaborators broken_prefetch.

(** A versioned request for [/foo?color=red], and the plain [/foo]. *)
Definition foo_red : Context :=
  sample_context "/foo" "?color=red" (Some "v1") "default" "cors".
Definition foo_plain : Context :=
  sample_context "/foo" "" (Some "v1") "default" "cors".

(** The worker after it has answered [foo_red] from the network and the
    detached cache write has run. *)
Definition world_after_foo_red : World :=
  run_pending reference_worker (fst (handler reference_worker foo_red initial_world)).

(** Cache Storage with the precache of the build in use, a precache left
    by an older build, an API cache of an older release and the offline
    cache. *)
Definition world_with_old_caches : World :=
  set_caches
    {[ "workbox-precache-v2-https://shop.example/" :=
         {[ ("https://shop.example/_next/static/chunk.js", "") := offline_page ]};
       "workbox-precache-v1-https://shop.example/" :=
         {[ ("https://shop.example/old.js", "") := offline_page ]};
       "api-v0" := {[ ("https://shop.example/foo", "") := offline_page ]};
       "offlineCache" := ∅ ]}
    initial_world.

(* ================================================================== *)
(** ** The AMP warm-up of the install listener                         *)
(* ================================================================== *)

(** A window client as [clients.matchAll] returns it: [client.url], and
    that string parsed by [new URL(client.url)]. *)
Record Client := {
  client_url : string;
  client_location : URL
}.

(** [s.replace(/^&/, '?')]. *)
Definition replace_leading_amp (s : string) : string :=
  match s with
  | String c rest => if Ascii.eqb c "&"%char then String "?"%char rest else s
  | EmptyString => s
  end.

(** [url.pathname + fixedSearch].  [strip] is what
    [s.replace(IS_AMP_REGEX, '$2')] returns; the pattern itself is not among
    the sources. *)
Definition canonical_path (strip : string -> string) (c : Client) : string :=
  pathname (client_location c) ++ replace_leading_amp (strip (search (client_location c))).

(** [paths.forEach(f)]: the first exception ends the loop. *)
Fixpoint for_each (f : string -> World -> World * Completion unit) (l : list string)
    (w : World) : World * Completion unit :=
  match l with
  | [] => (w, Normal tt)
  | x :: rest =>
      match f x w with
      | (w', Normal _) => for_each f rest w'
      | (w', Throw e) => (w', Throw e)
      end
  end.

(** The callback given to [clients.matchAll(...).then]: filter, map, and
    [forEach(path => cachePath({ path }, true))].  An exception in the
    callback rejects the promise. *)
Definition install_warmup (E : Collaborators) (strip : string -> string)
    (allClients : list Client) (w : World) : World * Promise unit :=
  let paths :=
    List.map (canonical_path strip)
      (List.filter (fun c => IS_AMP_REGEX E (client_url c)) allClients) in
  match for_each
          (fun p w' =>
             call E "cachePath" {| action := JsUndefined; path := Some p; options := OptionsUndefined |} w')
          paths w with
  | (w', Normal _) => (w', Resolved tt)
  | (w', Throw e) => (w', Rejected e)
  end.

(** The cache names the sweep deletes. *)
Definition untagged (key : string) : bool := negb (startsWith key "workbox-precache").

(* ================================================================== *)
(** ** A second reference worker                                       *)
(* ================================================================== *)

Definition plain_response : Response :=
  {| resp_status := 200; resp_headers := ∅; resp_body := "not for the cache" |}.

(** The reference worker in front of a network whose answers never carry
    [x-sw-cache-control]. *)
Definition uncacheable_worker : Collaborators :=
  {| IS_AMP_REGEX := amp_query_match;
     getAPICacheName := nameFor;
     prefetch := enqueue;
     abortPrefetches := abortAll;
     resumePrefetches := resumeAll;
     offlineResponse := fun _ _ => offline_page;
     fetch_network := fun _ => Resolved plain_response;
     cachedResponseWillBeUsed := fun _ _ => true;
     self_origin := "https://shop.example";
     resolve_reference :=
       fun p => if startsWith p "//" then Some ("https:" ++ p) else None |}.

(* ================================================================== *)
(** * Properties                                                       *)
(* ================================================================== *)

(** ** Strings *)

Lemma strip_prefix_Some (p s rest : string) :
  strip_prefix p s = Some rest <-> s = p ++ rest.
Proof.
  revert s. induction p as [|a p IH]; intros s; simpl.
  - split; [intros [= ->] | intros ->]; reflexivity.
  - destruct s as [|b s]; [split; discriminate|].
    destruct (Ascii.eqb_spec a b) as [->|Hab].
    + rewrite IH. split; [intros -> | intros [= ->]]; reflexivity.
    + split; [discriminate | intros [= Hb _]; congruence].
Qed.

Lemma endsWith_spec (s suf : string) :
  endsWith s suf = true <-> exists pre, s = pre ++ suf.
Proof.
  induction s as [|a s IH]; cbn [endsWith].
  - rewrite orb_false_r. split.
    + intros H%String.eqb_eq. exists "". subst suf. reflexivity.
    + intros [pre H]. destruct pre; simpl in H; [|discriminate].
      apply String.eqb_eq. exact H.
  - rewrite orb_true_iff, IH. split.
    + intros [H%String.eqb_eq | [pre ->]].
      * exists "". subst suf. reflexivity.
      * exists (String a pre). reflexivity.
    + intros [pre H]. destruct pre as [|b pre]; simpl in H.
      * left. apply String.eqb_eq. exact H.
      * right. injection H as _ ->. exists pre. reflexivity.
Qed.

Lemma contains_char_app (c : ascii) (s t : string) :
  contains_char c (s ++ t) = contains_char c s || contains_char c t.
Proof.
  induction s as [|a s IH]; simpl; [reflexivity|].
  rewrite IH. apply orb_assoc.
Qed.

(** On a path without a question mark the video pattern can only match at
    a final ".mp4". *)
Lemma mp4_here_no_query (s : string) :
  contains_char "?" s = false -> mp4_here s = String.eqb s ".mp4".
Proof.
  intros Hq. unfold mp4_here.
  destruct (strip_prefix ".mp4" s) as [rest|] eqn:Hs.
  - apply strip_prefix_Some in Hs. subst s.
    destruct rest as [|c rest]; [reflexivity|].
    rewrite contains_char_app in Hq. apply orb_false_iff in Hq as [_ Hq].
    cbn [contains_char] in Hq. apply orb_false_iff in Hq as [Hc _].
    rewrite Hc. reflexivity.
  - symmetry. apply String.eqb_neq. intros ->. discriminate.
Qed.

Lemma regex_search_mp4_no_query (s : string) :
  contains_char "?" s = false -> regex_search mp4_here s = endsWith s ".mp4".
Proof.
  induction s as [|a s IH]; intros Hq.
  - reflexivity.
  - cbn [regex_search endsWith]. rewrite (mp4_here_no_query _ Hq).
    simpl in Hq. apply orb_false_iff in Hq as [_ Hq]. rewrite (IH Hq). reflexivity.
Qed.

(** A path that ends in ".mp4" is a video whatever else it contains. *)
Lemma regex_search_mp4_suffix (s : string) :
  endsWith s ".mp4" = true -> regex_search mp4_here s = true.
Proof.
  induction s as [|a s IH]; cbn [regex_search endsWith]; intros H.
  - discriminate.
  - apply orb_true_iff in H as [H%String.eqb_eq | H].
    + rewrite H. reflexivity.
    + rewrite (IH H). apply orb_true_r.
Qed.

(** ** Request classifier *)

(** C8.  [matchRuntimePath] is the conjunction of the three predicates: for
    the path of a URL object (which never holds a question mark: the query
    is kept in [search]), a request is intercepted exactly when its protocol
    is "https:" or its host name is "localhost", its path does not start
    with "/_next/static/" and its path does not end in ".mp4".  No header
    takes part, so a static-asset path and an ".mp4" path are rejected
    whatever API version the request carries. *)
Theorem matchRuntimePath_iff (context : Context) :
  contains_char "?" (pathname (url context)) = false ->
  (matchRuntimePath context = true <->
   (protocol (url context) = "https:" \/ hostname (url context) = "localhost") /\
   startsWith (pathname (url context)) "/_next/static/" = false /\
   endsWith (pathname (url context)) ".mp4" = false) /\
  (startsWith (pathname (url context)) "/_next/static/" = true ->
   matchRuntimePath context = false) /\
  (endsWith (pathname (url context)) ".mp4" = true ->
   matchRuntimePath context = false).
Proof.
  intros Hq. unfold matchRuntimePath, isSecure, isStaticAsset, isVideo.
  rewrite (regex_search_mp4_no_query _ Hq).
  repeat split.
  - apply andb_prop in H as [H _]. apply andb_prop in H as [H _].
    apply orb_prop in H as [H | H]; apply String.eqb_eq in H; auto.
  - apply andb_prop in H as [H _]. apply andb_prop in H as [_ H].
    apply negb_true_iff in H. exact H.
  - apply andb_prop in H as [_ H]. apply negb_true_iff in H. exact H.
  - intros (Hsec & Hst & Hv). rewrite Hst, Hv.
    destruct Hsec as [-> | ->]; simpl.
    + reflexivity.
    + rewrite orb_true_r. reflexivity.
  - intros ->. simpl. rewrite andb_false_r. reflexivity.
  - intros ->. simpl. rewrite andb_false_r. reflexivity.
Qed.

Lemma matchRuntimePath_iff_witness :
  matchRuntimePath (sample_context "/p/1" "?page=2" (Some "v1") "default" "cors") = true.
Proof.
  apply (matchRuntimePath_iff (sample_context "/p/1" "?page=2" (Some "v1") "default" "cors")).
  - reflexivity.
  - vm_compute. repeat split. left. reflexivity.
Defined.

(** ** Control channel *)

(** C9.  A message whose data is absent, has no [action], or has an
    [action] other than the five recognised ones is ignored: the listener
    returns normally and the worker state is what it was. *)
Theorem unrecognized_message_ignored (E : Collaborators) (data : EventData) (w : World) :
  unrecognized data = true ->
  on_message E data w = (w, Normal tt).
Proof.
  destruct data as [v | d]; simpl; [reflexivity|].
  destruct (truthy (action d)); simpl; [|reflexivity].
  unfold recognized_action. intros H. apply negb_true_iff in H.
  repeat (apply orb_false_iff in H as [H ?]).
  repeat match goal with Hx : strict_eq_string _ _ = false |- _ => rewrite Hx; clear Hx end.
  reflexivity.
Qed.

Lemma unrecognized_message_ignored_witness :
  on_message (sample_collaborators enqueue)
    (DataObject {| action := JsString "cache-everything"; path := Some "/p"; options := OptionsUndefined |})
    initial_world
  = (initial_world, Normal tt).
Proof.
  apply (unrecognized_message_ignored (sample_collaborators enqueue)).
  reflexivity.
Defined.

(** C10.  A message whose [action] is "cache-state" makes the listener call
    [cacheState], a name bound nowhere in the module: the listener throws a
    [ReferenceError] for it and the worker state is left as it was. *)
Theorem cache_state_message_throws (E : Collaborators) (d : MessageData) (w : World) :
  strict_eq_string (action d) "cache-state" = true ->
  on_message E (DataObject d) w = (w, Throw (ReferenceError "cacheState")).
Proof.
  intros H. destruct (action d) as [| |b|n|s|] eqn:Ha; simpl in H; try discriminate.
  apply String.eqb_eq in H. subst s.
  unfold on_message. rewrite Ha. reflexivity.
Qed.

Lemma cache_state_message_throws_witness :
  on_message (sample_collaborators enqueue)
    (DataObject {| action := JsString "cache-state"; path := None; options := OptionsUndefined |})
    initial_world
  = (initial_world, Throw (ReferenceError "cacheState")).
Proof.
  apply (cache_state_message_throws (sample_collaborators enqueue)).
  reflexivity.
Defined.

(** ** The install-time cache sweep *)

Lemma sweep_keeps_tagged (keys : list string) (w : World) (name : string) :
  startsWith name "workbox-precache" = true ->
  caches (sweep keys w) !! name = caches w !! name.
Proof.
  intros Htag. revert w. induction keys as [|key rest IH]; intros w; cbn [sweep].
  - reflexivity.
  - destruct (startsWith key "workbox-precache") eqn:Hk; cbn [negb].
    + apply IH.
    + rewrite IH. cbn. apply lookup_delete_ne. intros ->. congruence.
Qed.

Lemma sweep_keeps_missing (keys : list string) (w : World) (name : string) :
  caches w !! name = None ->
  caches (sweep keys w) !! name = None.
Proof.
  revert w. induction keys as [|key rest IH]; intros w Hn; cbn [sweep].
  - exact Hn.
  - destruct (startsWith key "workbox-precache"); cbn [negb].
    + apply IH, Hn.
    + apply IH. cbn. rewrite lookup_delete. case_decide; [reflexivity | exact Hn].
Qed.

Lemma sweep_deletes_untagged (keys : list string) (w : World) (name : string) :
  startsWith name "workbox-precache" = false ->
  name ∈ keys ->
  caches (sweep keys w) !! name = None.
Proof.
  intros Htag. revert w. induction keys as [|key rest IH]; intros w Hin; cbn [sweep].
  - inversion Hin.
  - destruct (decide (name = key)) as [<- | Hne].
    + rewrite Htag. cbn [negb]. apply sweep_keeps_missing. cbn. apply lookup_delete_eq.
    + assert (name ∈ rest) as Hr.
      { apply elem_of_cons in Hin as [? | ?]; [congruence | assumption]. }
      destruct (startsWith key "workbox-precache"); cbn [negb]; apply IH, Hr.
Qed.

(** C6, as the code has it.  The sweep, which the code runs in its
    install listener, goes through every existing cache name and deletes each
    cache whose name does not start with "workbox-precache", whatever it
    holds.  Every cache whose name starts with "workbox-precache" is still
    there afterwards with its entries untouched: the precache of the build in
    use, and just as well a cache with that prefix left by an older build. *)
Theorem install_sweep (w : World) :
  (forall name, startsWith name "workbox-precache" = false ->
                caches (on_install w) !! name = None) /\
  (forall name, startsWith name "workbox-precache" = true ->
                caches (on_install w) !! name = caches w !! name).
Proof.
  unfold on_install, caches_keys. split; intros name Htag.
  - destruct (caches w !! name) as [c|] eqn:Hc.
    + apply sweep_deletes_untagged; [exact Htag|].
      apply elem_of_elements, elem_of_dom. rewrite Hc. eauto.
    + apply sweep_keeps_missing, Hc.
  - apply sweep_keeps_tagged, Htag.
Qed.

Lemma install_sweep_witness :
  caches (on_install world_with_old_caches) !! "api-v0" = None /\
  caches (on_install world_with_old_caches) !! "offlineCache" = None /\
  caches (on_install world_with_old_caches) !! "workbox-precache-v2-https://shop.example/"
  = caches world_with_old_caches !! "workbox-precache-v2-https://shop.example/".
Proof.
  destruct (install_sweep world_with_old_caches) as [Hdel Hkeep].
  split; [apply Hdel; reflexivity|].
  split; [apply Hdel; reflexivity|].
  apply Hkeep. reflexivity.
Defined.

(** C6 does not hold as worded: with "workbox-precache-v2-https://shop.example/"
    the precache of the build in use, the cache
    "workbox-precache-v1-https://shop.example/" left by an older build does
    not belong to it, and yet it is still there after the sweep, entries
    included. *)
Lemma stale_precache_survives_sweep :
  "workbox-precache-v1-https://shop.example/" <> "workbox-precache-v2-https://shop.example/" /\
  caches world_with_old_caches !! "workbox-precache-v1-https://shop.example/"
  = Some {[ ("https://shop.example/old.js", "") := offline_page ]} /\
  caches (on_install world_with_old_caches) !! "workbox-precache-v1-https://shop.example/"
  = Some {[ ("https://shop.example/old.js", "") := offline_page ]}.
Proof. repeat split; [discriminate | vm_compute; reflexivity ..]. Qed.

(** ** The runtime route handler: building blocks *)

(** The AMP step touches the prefetch queue and the trace only. *)
Lemma amp_step_frame (E : Collaborators) (context : Context) (w : World) :
  let w1 := fst (amp_step E context w) in
  caches w1 = caches w /\
  runtimeCacheOptions w1 = runtimeCacheOptions w /\
  bodyUsed w1 = bodyUsed w /\
  nextId w1 = nextId w /\
  pending w1 = pending w /\
  trace w1 = (trace w ++ amp_events E context)%list.
Proof.
  unfold amp_step, amp_events, call_prefetch, lift_queue.
  destruct (isAmp E (url context)); cbn.
  - destruct (prefetch E _ true (prefetchQueue w)); cbn; repeat split; reflexivity.
  - rewrite app_nil_r. repeat split; reflexivity.
Qed.


Lemma amp_events_no_lookup (E : Collaborators) (context : Context) :
  List.filter is_cache_lookup (amp_events E context) = [].
Proof. unfold amp_events. destruct (isAmp E (url context)); reflexivity. Qed.

Lemma amp_events_no_network (E : Collaborators) (context : Context) :
  List.filter is_network (amp_events E context) = [].
Proof. unfold amp_events. destruct (isAmp E (url context)); reflexivity. Qed.

Lemma amp_events_prefetch (E : Collaborators) (context : Context) :
  List.filter is_prefetch (amp_events E context) = amp_events E context.
Proof. unfold amp_events. destruct (isAmp E (url context)); reflexivity. Qed.

Ltac trace_eq Ht :=
  unfold events_where; cbn;
  rewrite ?Ht, ?List.filter_app, ?amp_events_no_lookup, ?amp_events_no_network; cbn;
  rewrite ?app_nil_r; try reflexivity.

Lemma truthy_header_Some (v : string) : v <> "" -> truthy_header (Some v) = true.
Proof. intros H. cbn. apply negb_true_iff, String.eqb_neq, H. Qed.

Lemma usable_entry_ext (E : Collaborators) (context : Context) (w w' : World) :
  caches w = caches w' ->
  runtimeCacheOptions w = runtimeCacheOptions w' ->
  usable_entry E (cacheOptions_of E context w) context w
  = usable_entry E (cacheOptions_of E context w') context w'.
Proof. unfold usable_entry, cacheOptions_of. intros -> ->. reflexivity. Qed.

(** The only exception that can leave the [try] block in this model is one
    thrown by the prefetch call of the AMP step. *)
Lemma handler_try_throws (E : Collaborators) (context : Context) (w w1 : World)
    (e : JsError) :
  handler_try E context w = (w1, Throw e) <-> amp_step E context w = (w1, Throw e).
Proof.
  unfold handler_try.
  destruct (amp_step E context w) as [w' [[]|e']].
  - split; [|discriminate].
    destruct (only_if_cached_bypass _); [discriminate|].
    destruct (negb _).
    + destruct (NetworkOnly_handle E context w'); discriminate.
    + destruct (promise_catch _ _ w'); discriminate.
  - split; intros [= -> ->]; reflexivity.
Qed.

(** The handler on the versioned branch is [versioned_outcome]. *)
Lemma handler_versioned (E : Collaborators) (context : Context) (w w1 : World)
    (v : string) :
  apiVersion_of context = Some v -> v <> "" ->
  only_if_cached_bypass (request context) = false ->
  amp_step E context w = (w1, Normal tt) ->
  handler E context w = versioned_outcome E context v w1.
Proof.
  intros Hv Hne Hby Hamp.
  unfold handler, handler_try, versioned_outcome.
  rewrite Hamp, Hby, Hv, (truthy_header_Some _ Hne). cbn [negb].
  unfold promise_catch, promise_then, CacheOnly_handle, NetworkOnly_handle, offline,
    on_api_response.
  replace (cacheName (cacheOptions_of E context w1)) with (getAPICacheName E (Some v))
    by (unfold cacheOptions_of; cbn; rewrite Hv; reflexivity).
  replace (usable_entry E (cacheOptions_of E context w1) context
             (log_event (EvCacheLookup (getAPICacheName E (Some v)) (href (url context))) w1))
    with (usable_entry E (cacheOptions_of E context w1) context w1) by reflexivity.
  destruct (usable_entry E (cacheOptions_of E context w1) context w1) as [r|].
  - reflexivity.
  - destruct (fetch_network E context) as [r|e].
    + cbn [new_response obj_response resp_headers].
      destruct (truthy_header (headers_get (resp_headers r) "x-sw-cache-control")).
      all: unfold clone, body_unread; cbn; rewrite lookup_insert_eq; reflexivity.
    + reflexivity.
Qed.

Lemma versioned_outcome_resolves (E : Collaborators) (context : Context) (v : string)
    (w1 : World) :
  exists o, snd (versioned_outcome E context v w1) = Resolved (Some o).
Proof.
  unfold versioned_outcome.
  destruct (usable_entry _ _ _ _); [cbn; eauto|].
  destruct (fetch_network E context); cbn; eauto.
Qed.

(** Whatever branch the handler takes, what it adds to the trace starts
    with the prefetch call of an AMP request and holds no other prefetch
    call. *)
Lemma handler_trace (E : Collaborators) (context : Context) (w : World) :
  exists rest,
    trace (fst (handler E context w)) = (trace w ++ amp_events E context ++ rest)%list /\
    List.filter is_prefetch rest = [].
Proof.
  pose proof (amp_step_frame E context w) as (_ & _ & _ & _ & _ & Ht).
  destruct (amp_step E context w) as [w1 [[]|e1]] eqn:Hamp; cbn [fst] in Ht.
  - destruct (only_if_cached_bypass (request context)) eqn:Hby.
    { exists []. unfold handler, handler_try. rewrite Hamp, Hby. cbn.
      rewrite app_nil_r. auto. }
    destruct (truthy_header (apiVersion_of context)) eqn:Hv.
    + destruct (apiVersion_of context) as [v|] eqn:Hv'; [|discriminate].
      assert (v <> "") as Hne by (intros ->; discriminate).
      rewrite (handler_versioned E context w w1 v Hv' Hne Hby Hamp).
      unfold versioned_outcome.
      destruct (usable_entry _ _ _ _) as [r0|].
      { eexists. cbn. rewrite Ht, <- app_assoc. split; reflexivity. }
      destruct (fetch_network E context) as [r|e].
      * destruct (truthy_header (headers_get (resp_headers r) "x-sw-cache-control")).
        all: eexists; cbn; rewrite Ht, <- !app_assoc; split; reflexivity.
      * eexists. cbn. rewrite Ht, <- !app_assoc. split; reflexivity.
    + unfold handler, handler_try. rewrite Hamp, Hby, Hv. cbn [negb].
      unfold NetworkOnly_handle.
      destruct (fetch_network E context).
      all: eexists; cbn; rewrite Ht, <- !app_assoc; split; reflexivity.
  - apply handler_try_throws in Hamp. unfold handler. rewrite Hamp.
    unfold NetworkOnly_handle.
    destruct (fetch_network E context).
    all: eexists; cbn; rewrite Ht, <- !app_assoc; split; reflexivity.
Qed.

Lemma handler_prefetch_events (E : Collaborators) (context : Context) (w : World) :
  events_where is_prefetch (fst (handler E context w)) =
    (events_where is_prefetch w ++ amp_events E context)%list.
Proof.
  destruct (handler_trace E context w) as (rest & Ht & Hrest).
  unfold events_where.
  rewrite Ht, !List.filter_app, Hrest, amp_events_prefetch, app_nil_r. reflexivity.
Qed.

(** The handler makes a cache lookup only for a request with a non-empty
    API version that does not take the only-if-cached exit and whose
    prefetch call, if any, has returned. *)
Lemma handler_lookup_only_if_versioned (E : Collaborators) (context : Context) (w : World) :
  events_where is_cache_lookup (fst (handler E context w))
    <> events_where is_cache_lookup w ->
  exists v,
    apiVersion_of context = Some v /\ v <> "" /\
    only_if_cached_bypass (request context) = false /\
    snd (amp_step E context w) = Normal tt.
Proof.
  intros Hlook.
  pose proof (amp_step_frame E context w) as (_ & _ & _ & _ & _ & Ht).
  destruct (amp_step E context w) as [w1 [[]|e1]] eqn:Hamp; cbn [fst] in Ht.
  - destruct (only_if_cached_bypass (request context)) eqn:Hby.
    { exfalso. apply Hlook. unfold handler, handler_try. rewrite Hamp, Hby.
      trace_eq Ht. }
    destruct (truthy_header (apiVersion_of context)) eqn:Hv.
    + destruct (apiVersion_of context) as [v|] eqn:Hv'; [|discriminate].
      exists v. repeat split. intros ->. discriminate.
    + exfalso. apply Hlook. unfold handler, handler_try. rewrite Hamp, Hby, Hv.
      cbn [negb]. unfold NetworkOnly_handle.
      destruct (fetch_network E context); trace_eq Ht.
  - exfalso. apply Hlook. apply handler_try_throws in Hamp. unfold handler.
    rewrite Hamp. unfold NetworkOnly_handle.
    destruct (fetch_network E context); trace_eq Ht.
Qed.

(** A detached cache write of an unread response that the platform accepts
    stores its content under the URL its path resolves to, and reads its
    body. *)
Lemma run_job_put (E : Collaborators) (name p : string) (res : ResponseObj) (w : World)
    (key : string * string) :
  put_key E p = Some key ->
  put_refused (obj_response res) = false ->
  body_unread w res = true ->
  let w' := run_job E (JobCachePut name p res) w in
  (caches w' !! name ≫= (fun entries => entries !! key)) = Some (obj_response res) /\
  bodyUsed w' = <[obj_id res := true]> (bodyUsed w) /\
  runtimeCacheOptions w' = runtimeCacheOptions w /\
  prefetchQueue w' = prefetchQueue w /\
  trace w' = (trace w ++ [EvLog ("caching " ++ p)])%list.
Proof.
  intros Hkey Hok Hu. unfold run_job, cache_put, caches_open. rewrite Hkey, Hok.
  destruct (caches w !! name) as [c|] eqn:Hc.
  - rewrite Hu. cbn. rewrite lookup_insert_eq. cbn. rewrite lookup_insert_eq.
    repeat split; reflexivity.
  - replace (body_unread (set_caches (<[name:=∅]> (caches w)) w) res)
      with (body_unread w res) by reflexivity.
    rewrite Hu. cbn. rewrite lookup_insert_eq. cbn. rewrite lookup_insert_eq.
    repeat split; reflexivity.
Qed.

Lemma handler_caught (E : Collaborators) (context : Context) (w w1 : World) (e : JsError) :
  amp_step E context w = (w1, Throw e) ->
  handler E context w =
    (let '(w2, p) := NetworkOnly_handle E context (log_event EvWarn w1) in
     (w2, promise_map Some p)).
Proof.
  intros Hamp. apply handler_try_throws in Hamp. unfold handler. rewrite Hamp. reflexivity.
Qed.

Lemma handler_bypass (E : Collaborators) (context : Context) (w w1 : World) :
  amp_step E context w = (w1, Normal tt) ->
  only_if_cached_bypass (request context) = true ->
  handler E context w = (w1, Resolved None).
Proof. intros Hamp Hby. unfold handler, handler_try. rewrite Hamp, Hby. reflexivity. Qed.

Lemma handler_unversioned (E : Collaborators) (context : Context) (w w1 : World) :
  amp_step E context w = (w1, Normal tt) ->
  only_if_cached_bypass (request context) = false ->
  truthy_header (apiVersion_of context) = false ->
  handler E context w =
    (let '(w2, p) := NetworkOnly_handle E context w1 in (w2, promise_map Some p)).
Proof.
  intros Hamp Hby Hv. unfold handler, handler_try. rewrite Hamp, Hby, Hv. cbn [negb].
  destruct (NetworkOnly_handle E context w1). reflexivity.
Qed.

Lemma NetworkOnly_frame (E : Collaborators) (context : Context) (w : World) :
  let w' := fst (NetworkOnly_handle E context w) in
  caches w' = caches w /\ runtimeCacheOptions w' = runtimeCacheOptions w /\
  pending w' = pending w /\ prefetchQueue w' = prefetchQueue w.
Proof.
  unfold NetworkOnly_handle. destruct (fetch_network E context); cbn;
    repeat split; reflexivity.
Qed.

Lemma truthy_header_cases (o : option string) :
  truthy_header o = true -> exists v, o = Some v /\ v <> "".
Proof.
  destruct o as [v|]; [|discriminate]. intros H. exists v. split; [reflexivity|].
  intros ->. discriminate.
Qed.

(** The four ways through the handler: the prefetch call throws; the
    only-if-cached exit; no usable version; the versioned chain. *)
Lemma handler_cases (E : Collaborators) (context : Context) (w : World) :
  (exists w1 e, amp_step E context w = (w1, Throw e) /\
     handler E context w =
       (let '(w2, p) := NetworkOnly_handle E context (log_event EvWarn w1) in
        (w2, promise_map Some p))) \/
  (exists w1, amp_step E context w = (w1, Normal tt) /\
     only_if_cached_bypass (request context) = true /\
     handler E context w = (w1, Resolved None)) \/
  (exists w1, amp_step E context w = (w1, Normal tt) /\
     only_if_cached_bypass (request context) = false /\
     truthy_header (apiVersion_of context) = false /\
     handler E context w =
       (let '(w2, p) := NetworkOnly_handle E context w1 in (w2, promise_map Some p))) \/
  (exists w1 v, amp_step E context w = (w1, Normal tt) /\
     only_if_cached_bypass (request context) = false /\
     apiVersion_of context = Some v /\ v <> "" /\
     handler E context w = versioned_outcome E context v w1).
Proof.
  destruct (amp_step E context w) as [w1 [[]|e]] eqn:Hamp.
  - destruct (only_if_cached_bypass (request context)) eqn:Hby.
    + right; left. exists w1. repeat split. apply handler_bypass; assumption.
    + destruct (truthy_header (apiVersion_of context)) eqn:Hv.
      * right; right; right. apply truthy_header_cases in Hv as (v & Hv & Hne).
        exists w1, v. repeat split; try assumption. apply handler_versioned; assumption.
      * right; right; left. exists w1. repeat split. apply handler_unversioned; assumption.
  - left. exists w1, e. split; [reflexivity|]. apply (handler_caught E context w w1 e Hamp).
Qed.

(** On the versioned branch the handler makes one lookup, and a usable
    stored response is its answer without anything else happening. *)
Lemma handler_cache_lookup_and_hit
    (E : Collaborators) (context : Context) (w : World) (v : string) :
  apiVersion_of context = Some v -> v <> "" ->
  only_if_cached_bypass (request context) = false ->
  snd (amp_step E context w) = Normal tt ->
  events_where is_cache_lookup (fst (handler E context w)) =
    (events_where is_cache_lookup w ++
     [EvCacheLookup (getAPICacheName E (Some v)) (href (url context))])%list /\
  (forall r,
      usable_entry E (cacheOptions_of E context w) context w = Some r ->
      settled_content (snd (handler E context w)) = Resolved (Some r) /\
      events_where is_network (fst (handler E context w)) = events_where is_network w /\
      caches (fst (handler E context w)) = caches w /\
      pending (fst (handler E context w)) = pending w).
Proof.
  intros Hv Hne Hby Hamp.
  destruct (amp_step E context w) as [w1 c] eqn:Hstep. cbn [snd] in Hamp. subst c.
  pose proof (amp_step_frame E context w) as (Hc & Ho & _ & _ & Hp & Ht).
  rewrite Hstep in Hc, Ho, Hp, Ht. cbn [fst] in Hc, Ho, Hp, Ht.
  rewrite (handler_versioned E context w w1 v Hv Hne Hby Hstep).
  rewrite <- (usable_entry_ext E context w1 w Hc Ho).
  unfold versioned_outcome.
  destruct (usable_entry E (cacheOptions_of E context w1) context w1) as [r0|].
  - split.
    + trace_eq Ht.
    + intros r [= <-]. cbn. repeat split; try assumption. trace_eq Ht.
  - split; [|discriminate].
    destruct (fetch_network E context) as [r|e].
    + destruct (truthy_header (headers_get (resp_headers r) "x-sw-cache-control"));
        trace_eq Ht.
    + trace_eq Ht.
Qed.

(** ** The runtime route handler: claims *)

(** C1.  The handler is an asynchronous function: it always hands back a
    promise.  An exception raised inside its [try] block is caught, and the
    promise is then the one of [new NetworkOnly().handle(context)], so the
    caller gets what the network alone gives; and whenever the handler's
    promise rejects at all, the rejection is the one of the direct network
    fetch of that request. *)
Theorem handler_degrades_to_network (E : Collaborators) (context : Context) (w : World) :
  (forall w1 e,
      handler_try E context w = (w1, Throw e) ->
      handler E context w =
        (let '(w2, p) := NetworkOnly_handle E context (log_event EvWarn w1) in
         (w2, promise_map Some p)) /\
      settled_content (snd (handler E context w)) = pass_through E context) /\
  (forall e,
      snd (handler E context w) = Rejected e ->
      fetch_network E context = Rejected e).
Proof.
  split.
  - intros w1 e Hthrow. unfold handler. rewrite Hthrow. split; [reflexivity|].
    unfold NetworkOnly_handle, pass_through.
    destruct (fetch_network E context); reflexivity.
  - intros e.
    destruct (amp_step E context w) as [w1 [[]|e1]] eqn:Hamp.
    + destruct (only_if_cached_bypass (request context)) eqn:Hby.
      * unfold handler, handler_try. rewrite Hamp, Hby. discriminate.
      * destruct (truthy_header (apiVersion_of context)) eqn:Hv.
        -- destruct (apiVersion_of context) as [v|] eqn:Hv'; [|discriminate].
           assert (v <> "") as Hne.
           { intros ->. discriminate. }
           rewrite (handler_versioned E context w w1 v Hv' Hne Hby Hamp).
           destruct (versioned_outcome_resolves E context v w1) as [o ->]. discriminate.
        -- unfold handler, handler_try. rewrite Hamp, Hby, Hv. cbn [negb].
           unfold NetworkOnly_handle.
           destruct (fetch_network E context); cbn; [discriminate | congruence].
    + apply handler_try_throws in Hamp. unfold handler. rewrite Hamp.
      unfold NetworkOnly_handle.
      destruct (fetch_network E context); cbn; [discriminate | congruence].
Qed.

Lemma handler_degrades_to_network_witness :
  settled_content
    (snd (handler faulty_worker
            (sample_context "/down" "?amp=1" (Some "v1") "default" "cors") initial_world))
  = pass_through faulty_worker
      (sample_context "/down" "?amp=1" (Some "v1") "default" "cors") /\
  fetch_network faulty_worker
    (sample_context "/down" "?amp=1" (Some "v1") "default" "cors")
  = Rejected (TypeError "Failed to fetch").
Proof.
  destruct (handler_degrades_to_network faulty_worker
              (sample_context "/down" "?amp=1" (Some "v1") "default" "cors")
              initial_world) as [Hcaught Hrejects].
  split.
  - eapply Hcaught. reflexivity.
  - apply Hrejects. reflexivity.
Defined.




(** What the handler does with a request that has a non-empty version and
    does not take the only-if-cached exit when its prefetch call throws: no
    lookup, and the network's answer. *)
Lemma handler_versioned_exception (E : Collaborators) (context : Context) (w : World)
    (e : JsError) :
  snd (amp_step E context w) = Throw e ->
  events_where is_cache_lookup (fst (handler E context w)) = events_where is_cache_lookup w /\
  settled_content (snd (handler E context w)) = pass_through E context.
Proof.
  intros Hamp.
  pose proof (amp_step_frame E context w) as (_ & _ & _ & _ & _ & Ht).
  destruct (amp_step E context w) as [w1 c] eqn:Hstep. cbn [fst snd] in *. subst c.
  rewrite (handler_caught E context w w1 e Hstep).
  unfold NetworkOnly_handle, pass_through.
  destruct (fetch_network E context); cbn; split; try reflexivity; trace_eq Ht.
Qed.

Lemma handler_bypass_no_lookup (E : Collaborators) (context : Context) (w : World) :
  only_if_cached_bypass (request context) = true ->
  events_where is_cache_lookup (fst (handler E context w)) = events_where is_cache_lookup w.
Proof.
  intros Hby.
  pose proof (amp_step_frame E context w) as (_ & _ & _ & _ & _ & Ht).
  destruct (amp_step E context w) as [w1 [[]|e]] eqn:Hamp; cbn [fst] in Ht.
  - rewrite (handler_bypass E context w w1 Hamp Hby). trace_eq Ht.
  - rewrite (handler_caught E context w w1 e Hamp). unfold NetworkOnly_handle.
    destruct (fetch_network E context); trace_eq Ht.
Qed.

(** C5, as the code has it.  The only-if-cached test comes before the
    version is looked at: a request with cache mode [only-if-cached] and a
    mode other than [same-origin] causes no cache lookup, with or without a
    version.  A request with a non-empty [x-rsf-api-version] that does not
    take that exit makes, when no prefetch call is made or the call returns,
    one lookup in the cache that [getAPICacheName] names for its version, and
    a usable stored response that [CacheOnly] finds there is the handler's
    answer at once: the network is not asked and nothing is written or
    scheduled.  When the prefetch call throws, no lookup is made and the
    request is answered by [NetworkOnly]. *)
Theorem versioned_request_consults_cache
    (E : Collaborators) (context : Context) (w : World) :
  (only_if_cached_bypass (request context) = true ->
   events_where is_cache_lookup (fst (handler E context w))
   = events_where is_cache_lookup w) /\
  (forall v,
      apiVersion_of context = Some v -> v <> "" ->
      only_if_cached_bypass (request context) = false ->
      (snd (amp_step E context w) = Normal tt ->
       events_where is_cache_lookup (fst (handler E context w)) =
         (events_where is_cache_lookup w ++
          [EvCacheLookup (getAPICacheName E (Some v)) (href (url context))])%list /\
       (forall r,
           usable_entry E (cacheOptions_of E context w) context w = Some r ->
           settled_content (snd (handler E context w)) = Resolved (Some r) /\
           events_where is_network (fst (handler E context w)) = events_where is_network w /\
           caches (fst (handler E context w)) = caches w /\
           pending (fst (handler E context w)) = pending w)) /\
      (forall e,
          snd (amp_step E context w) = Throw e ->
          events_where is_cache_lookup (fst (handler E context w))
          = events_where is_cache_lookup w /\
          settled_content (snd (handler E context w)) = pass_through E context)).
Proof.
  split; [apply handler_bypass_no_lookup|].
  intros v Hv Hne Hby. split.
  - intros Hamp. exact (handler_cache_lookup_and_hit E context w v Hv Hne Hby Hamp).
  - intros e Hamp. exact (handler_versioned_exception E context w e Hamp).
Qed.

Lemma versioned_request_consults_cache_witness :
  settled_content (snd (handler reference_worker foo_plain world_after_foo_red))
  = Resolved (Some (sample_response foo_red)) /\
  events_where is_network (fst (handler reference_worker foo_plain world_after_foo_red))
  = events_where is_network world_after_foo_red /\
  events_where is_cache_lookup
    (fst (handler reference_worker
            (sample_context "/foo" "" (Some "v1") "only-if-cached" "no-cors")
            world_after_foo_red))
  = events_where is_cache_lookup world_after_foo_red /\
  settled_content
    (snd (handler faulty_worker
            (sample_context "/foo" "?amp=1" (Some "v1") "default" "cors") initial_world))
  = pass_through faulty_worker
      (sample_context "/foo" "?amp=1" (Some "v1") "default" "cors").
Proof.
  destruct (versioned_request_consults_cache reference_worker foo_plain
              world_after_foo_red) as [_ Hversioned].
  destruct (Hversioned "v1" eq_refl ltac:(discriminate) eq_refl) as [Hok _].
  destruct (Hok eq_refl) as [_ Hhit].
  destruct (Hhit (sample_response foo_red) eq_refl) as (Hres & Hnet & _).
  split; [exact Hres|]. split; [exact Hnet|]. split.
  - apply (versioned_request_consults_cache reference_worker
             (sample_context "/foo" "" (Some "v1") "only-if-cached" "no-cors")
             world_after_foo_red). reflexivity.
  - destruct (versioned_request_consults_cache faulty_worker
                (sample_context "/foo" "?amp=1" (Some "v1") "default" "cors")
                initial_world) as [_ Hfaulty].
    destruct (Hfaulty "v1" eq_refl ltac:(discriminate) eq_refl) as [_ Hthrow].
    destruct (Hthrow (OtherError "prefetch failed") eq_refl) as [_ Hpass]. exact Hpass.
Defined.

(** C5 does not hold as worded.  A request whose [x-rsf-api-version]
    header is present with an empty value causes no cache lookup and is
    answered by the network.  And a request that carries the version [v1],
    asks for [only-if-cached] and has mode [no-cors] is answered with nothing
    although the cache of its version holds a response for it; the worker
    state, trace included, is unchanged, so no lookup was made. *)
Lemma present_version_header_without_lookup :
  (apiVersion_of (sample_context "/foo" "" (Some "") "default" "cors") = Some "" /\
   cache_match (caches world_after_foo_red) (getAPICacheName reference_worker (Some ""))
     (sample_context "/foo" "" (Some "") "default" "cors") = None /\
   events_where is_cache_lookup
     (fst (handler reference_worker (sample_context "/foo" "" (Some "") "default" "cors")
             world_after_foo_red))
   = events_where is_cache_lookup world_after_foo_red /\
   events_where is_network
     (fst (handler reference_worker (sample_context "/foo" "" (Some "") "default" "cors")
             world_after_foo_red))
   = (events_where is_network world_after_foo_red
      ++ [EvNetwork "https://shop.example/foo"])%list) /\
  (apiVersion_of (sample_context "/foo" "" (Some "v1") "only-if-cached" "no-cors")
   = Some "v1" /\
   cache_match (caches world_after_foo_red) (getAPICacheName reference_worker (Some "v1"))
     (sample_context "/foo" "" (Some "v1") "only-if-cached" "no-cors")
   = Some (sample_response foo_red) /\
   handler reference_worker
     (sample_context "/foo" "" (Some "v1") "only-if-cached" "no-cors") world_after_foo_red
   = (world_after_foo_red, Resolved None)).
Proof. repeat split; vm_compute; reflexivity. Qed.

(** C7.  For a request with a non-empty API version that reaches the cache
    lookup, when [CacheOnly] has nothing usable and the network request
    fails, the handler's promise resolves with the response of
    [offlineResponse] for that version and request: it does not reject.  One
    lookup and one network attempt were made and nothing was written. *)
Theorem network_failure_yields_offline_response
    (E : Collaborators) (context : Context) (w : World) (v : string) (e : JsError) :
  apiVersion_of context = Some v -> v <> "" ->
  only_if_cached_bypass (request context) = false ->
  snd (amp_step E context w) = Normal tt ->
  usable_entry E (cacheOptions_of E context w) context w = None ->
  fetch_network E context = Rejected e ->
  settled_content (snd (handler E context w)) =
    Resolved (Some (offlineResponse E (Some v) context)) /\
  events_where is_cache_lookup (fst (handler E context w)) =
    (events_where is_cache_lookup w ++
     [EvCacheLookup (getAPICacheName E (Some v)) (href (url context))])%list /\
  events_where is_network (fst (handler E context w)) =
    (events_where is_network w ++ [EvNetwork (href (url context))])%list /\
  caches (fst (handler E context w)) = caches w.
Proof.
  intros Hv Hne Hby Hamp Hmiss Hnet.
  destruct (amp_step E context w) as [w1 c] eqn:Hstep. cbn [snd] in Hamp. subst c.
  pose proof (amp_step_frame E context w) as (Hc & Ho & _ & _ & _ & Ht).
  rewrite Hstep in Hc, Ho, Ht. cbn [fst] in Hc, Ho, Ht.
  rewrite (handler_versioned E context w w1 v Hv Hne Hby Hstep).
  rewrite <- (usable_entry_ext E context w1 w Hc Ho) in Hmiss.
  unfold versioned_outcome. rewrite Hmiss, Hnet.
  repeat split; [trace_eq Ht .. | exact Hc].
Qed.

Lemma network_failure_yields_offline_response_witness :
  settled_content
    (snd (handler reference_worker
            (sample_context "/down" "" (Some "v1") "default" "cors") initial_world))
  = Resolved (Some offline_page).
Proof.
  apply (network_failure_yields_offline_response reference_worker
           (sample_context "/down" "" (Some "v1") "default" "cors") initial_world
           "v1" (TypeError "Failed to fetch"));
    solve [reflexivity | discriminate].
Defined.

(** C4, as the code has it.  Each handling of a request makes one
    [prefetch] call when the query string of the request matches the AMP
    pattern and none otherwise; the call is the first thing the handler
    does, ahead of any lookup or network request, it is not awaited, and it
    is made for the path and query string of the request itself, with [true]
    as second argument.  The handler keeps no memory of earlier requests:
    handling the same AMP request twice makes the call twice. *)
Theorem amp_request_prefetches_per_visit
    (E : Collaborators) (context : Context) (w : World) :
  (exists rest,
      trace (fst (handler E context w)) = (trace w ++ amp_events E context ++ rest)%list /\
      List.filter is_prefetch rest = []) /\
  events_where is_prefetch (fst (handler E context (fst (handler E context w)))) =
    (events_where is_prefetch w ++ amp_events E context ++ amp_events E context)%list.
Proof.
  split; [apply handler_trace|].
  rewrite !handler_prefetch_events, <- app_assoc. reflexivity.
Qed.

(** C4 as stated fails: a request for [/foo?amp=1] makes the handler call
    [prefetch] for [/foo?amp=1], not for [/foo], and a second visit makes the
    same call again; with the spec's queue two tasks are pending. *)
Lemma amp_visits_enqueue_amp_path_each_time :
  events_where is_prefetch
    (fst (handler reference_worker
            (sample_context "/foo" "?amp=1" None "default" "cors") initial_world))
  = [EvPrefetch (Some "/foo?amp=1") true] /\
  events_where is_prefetch
    (fst (handler reference_worker
            (sample_context "/foo" "?amp=1" None "default" "cors")
            (fst (handler reference_worker
                    (sample_context "/foo" "?amp=1" None "default" "cors")
                    initial_world))))
  = [EvPrefetch (Some "/foo?amp=1") true; EvPrefetch (Some "/foo?amp=1") true] /\
  tasks (prefetchQueue
    (fst (handler reference_worker
            (sample_context "/foo" "?amp=1" None "default" "cors")
            (fst (handler reference_worker
                    (sample_context "/foo" "?amp=1" None "default" "cors")
                    initial_world)))))
  = [ {| task_path := Some "/foo?amp=1"; task_isPage := true; task_status := Pending |};
      {| task_path := Some "/foo?amp=1"; task_isPage := true; task_status := Pending |} ].
Proof. repeat split; vm_compute; reflexivity. Qed.

(** The round trip the handler does achieve.  Take a request with a
    non-empty API version that reaches the cache lookup, finds nothing usable,
    and is answered by the network with a response [r] that carries a
    non-empty [x-sw-cache-control] header and that [cache.put] accepts.  The
    caller is handed a clone with the content of [r], and when the handler
    returns nothing has been written: the write is detached.  Once the
    detached write has run, the cache named for the version holds [r] under
    the URL the request's pathname resolves to; the caller's clone is still
    unread and reading it gives the body of [r] and leaves the store alone.
    A later request with the same version whose URL is exactly that stored
    URL (no query string) is then answered from the cache with [r] itself,
    without the network, as long as the plugins let [r] through. *)
Lemma versioned_cache_round_trip
    (E : Collaborators) (context context' : Context) (w : World) (v : string)
    (r : Response) :
  apiVersion_of context = Some v -> v <> "" ->
  only_if_cached_bypass (request context) = false ->
  snd (amp_step E context w) = Normal tt ->
  usable_entry E (cacheOptions_of E context w) context w = None ->
  fetch_network E context = Resolved r ->
  truthy_header (headers_get (resp_headers r) "x-sw-cache-control") = true ->
  put_refused r = false ->
  pending w = [] ->
  let w1 := fst (handler E context w) in
  let w2 := run_pending E w1 in
  apiVersion_of context' = Some v ->
  only_if_cached_bypass (request context') = false ->
  put_key E (pathname (url context)) = Some (request_key (url context')) ->
  snd (amp_step E context' w2) = Normal tt ->
  cachedResponseWillBeUsed E (plugins (runtimeCacheOptions w2)) r = true ->
  (exists o1,
      snd (handler E context w) = Resolved (Some o1) /\
      obj_response o1 = r /\
      caches w1 = caches w /\
      body_unread w2 o1 = true /\
      snd (read_body o1 w2) = Resolved (resp_body r) /\
      caches (fst (read_body o1 w2)) = caches w2) /\
  cache_match (caches w2) (getAPICacheName E (Some v)) context' = Some r /\
  settled_content (snd (handler E context' w2)) = Resolved (Some r) /\
  events_where is_network (fst (handler E context' w2)) = events_where is_network w2.
Proof.
  intros Hv Hne Hby Hamp Hmiss Hnet Hsig Hok Hpend w1 w2 Hv' Hby' Hkey Hamp' Hfresh.
  destruct (amp_step E context w) as [wa c] eqn:Hstep. cbn [snd] in Hamp. subst c.
  pose proof (amp_step_frame E context w) as (Hc & Ho & _ & _ & Hp & _).
  rewrite Hstep in Hc, Ho, Hp. cbn [fst] in Hc, Ho, Hp.
  rewrite <- (usable_entry_ext E context wa w Hc Ho) in Hmiss.
  assert (handler E context w = versioned_outcome E context v wa) as Hh
    by (apply handler_versioned; assumption).
  unfold versioned_outcome in Hh. rewrite Hmiss, Hnet, Hsig in Hh.
  set (name := getAPICacheName E (Some v)) in *.
  set (wn := log_event (EvNetwork (href (url context)))
               (log_event (EvCacheLookup name (href (url context))) wa)) in *.
  set (apiRes := fst (new_response r wn)) in *.
  set (o1 := fst (new_response r
                    (spawn (JobCachePut name (pathname (url context)) apiRes)
                       (snd (new_response r wn))))) in *.
  assert (pending w1 = [JobCachePut name (pathname (url context)) apiRes]) as Hpw1.
  { unfold w1. rewrite Hh. cbn. rewrite Hp, Hpend. reflexivity. }
  assert (w2 = run_job E (JobCachePut name (pathname (url context)) apiRes)
                 (set_pending [] w1)) as Hw2.
  { unfold w2, run_pending. rewrite Hpw1. reflexivity. }
  assert (bodyUsed (set_pending [] w1)
          = <[S (nextId wa) := false]> (<[nextId wa := false]> (bodyUsed wa))) as Hbu.
  { unfold w1. rewrite Hh. reflexivity. }
  assert (body_unread (set_pending [] w1) apiRes = true) as Hunread.
  { unfold body_unread. rewrite Hbu. cbn.
    rewrite lookup_insert_ne by lia. rewrite lookup_insert_eq. reflexivity. }
  destruct (run_job_put E name (pathname (url context)) apiRes _ _ Hkey Hok Hunread)
    as (Hstored & Hbu2 & Hopt2 & _ & Htr2).
  rewrite <- Hw2 in Hstored, Hbu2, Hopt2, Htr2.
  assert (body_unread w2 o1 = true) as Hclone.
  { unfold body_unread. rewrite Hbu2, Hbu. cbn.
    rewrite lookup_insert_ne by lia. rewrite lookup_insert_eq. reflexivity. }
  assert (cache_match (caches w2) name context' = Some r) as Hmatch.
  { unfold cache_match. exact Hstored. }
  assert (usable_entry E (cacheOptions_of E context' w2) context' w2 = Some r) as Hhit.
  { unfold usable_entry, cacheOptions_of. cbn [cacheName co_plugins].
    rewrite Hv'. fold name. rewrite Hmatch, Hfresh. reflexivity. }
  split; [|split; [exact Hmatch|]].
  - exists o1. rewrite Hh. cbn [snd]. split; [reflexivity|]. split; [reflexivity|].
    split; [unfold w1; rewrite Hh; exact Hc|].
    split; [exact Hclone|].
    unfold read_body. rewrite Hclone. split; reflexivity.
  - destruct (handler_cache_lookup_and_hit E context' w2 v Hv' Hne Hby' Hamp')
      as [_ Hback].
    destruct (Hback r Hhit) as (Hres & Hnw & _). split; assumption.
Qed.

Lemma versioned_cache_round_trip_witness :
  cache_match (caches world_after_foo_red) (getAPICacheName reference_worker (Some "v1"))
    foo_plain
  = Some (sample_response foo_red) /\
  settled_content (snd (handler reference_worker foo_plain world_after_foo_red))
  = Resolved (Some (sample_response foo_red)) /\
  events_where is_network (fst (handler reference_worker foo_plain world_after_foo_red))
  = events_where is_network world_after_foo_red.
Proof.
  apply (versioned_cache_round_trip reference_worker foo_red foo_plain initial_world
           "v1" (sample_response foo_red));
    solve [reflexivity | discriminate].
Defined.

(** C2, on the code.  The response to [/foo?color=red] under version [v1]
    carries the cacheable signal and is written to the cache of [v1], but
    under [/foo], the pathname alone; the next request for [/foo?color=red]
    under [v1] finds nothing in that cache and is answered by the network a
    second time, where C2 has it answered with the stored response. *)
Lemma query_request_misses_its_own_write :
  fetch_network reference_worker foo_red = Resolved (sample_response foo_red) /\
  (caches world_after_foo_red !! getAPICacheName reference_worker (Some "v1")
     ≫= (fun entries => entries !! ("https://shop.example/foo", "")))
  = Some (sample_response foo_red) /\
  usable_entry reference_worker
    (cacheOptions_of reference_worker foo_red world_after_foo_red) foo_red
    world_after_foo_red
  = None /\
  events_where is_network (fst (handler reference_worker foo_red world_after_foo_red))
  = [EvNetwork "https://shop.example/foo?color=red";
     EvNetwork "https://shop.example/foo?color=red"].
Proof. repeat split; vm_compute; reflexivity. Qed.

(* ================================================================== *)
(** * Further properties of the worker                                 *)
(* ================================================================== *)

(** ** Control channel *)

(** X3.  What a "configure-runtime-caching" message does depends on its
    [options].  With [options: null] the listener throws a [TypeError] and
    the worker is left as it was.  With [options] missing, or an object whose
    [maxEntries] and [maxAgeSeconds] are each missing or a positive number,
    the listener returns normally and replaces the whole configuration:
    whatever was configured before, the options the runtime handler then
    passes to [CacheOnly] hold exactly one expiration plugin, with the values
    of the message and 200 entries and 86400 seconds for the missing ones. *)
Theorem configure_message_sets_options
    (E : Collaborators) (d : MessageData) (w : World) (context : Context) :
  strict_eq_string (action d) "configure-runtime-caching" = true ->
  (options d = OptionsNull ->
   exists msg, on_message E (DataObject d) w = (w, Throw (TypeError msg))) /\
  (forall o,
      destructure_options (options d) = Some o ->
      valid_setting (opt_maxEntries o) = true ->
      valid_setting (opt_maxAgeSeconds o) = true ->
      snd (on_message E (DataObject d) w) = Normal tt /\
      cacheOptions_of E context (fst (on_message E (DataObject d) w)) =
        {| co_plugins := [ {| maxEntries := or_default 200 (opt_maxEntries o);
                              maxAgeSeconds := or_default 86400 (opt_maxAgeSeconds o) |} ];
           cacheName := getAPICacheName E (apiVersion_of context) |} /\
      prefetchQueue (fst (on_message E (DataObject d) w)) = prefetchQueue w).
Proof.
  intros H. destruct (action d) as [| |b|n|s|] eqn:Ha; simpl in H; try discriminate.
  apply String.eqb_eq in H. subst s.
  unfold on_message. rewrite Ha. cbn. unfold configureRuntimeCaching. split.
  - intros ->. eexists. reflexivity.
  - intros o -> _ _. cbn. repeat split; reflexivity.
Qed.

Lemma configure_message_sets_options_witness :
  (exists msg,
      on_message reference_worker
        (DataObject {| action := JsString "configure-runtime-caching"; path := None;
                       options := OptionsNull |})
        initial_world
      = (initial_world, Throw (TypeError msg))) /\
  cacheOptions_of reference_worker foo_plain
    (fst (on_message reference_worker
            (DataObject {| action := JsString "configure-runtime-caching"; path := None;
                           options :=
                             OptionsObject {| opt_maxEntries := JsNumber 50;
                                              opt_maxAgeSeconds := JsUndefined |} |})
            initial_world))
  = {| co_plugins := [ {| maxEntries := JsNumber 50; maxAgeSeconds := JsNumber 86400 |} ];
       cacheName := "api-v1" |}.
Proof.
  split.
  - destruct (configure_message_sets_options reference_worker
                {| action := JsString "configure-runtime-caching"; path := None;
                   options := OptionsNull |}
                initial_world foo_plain eq_refl) as [Hnull _].
    apply Hnull. reflexivity.
  - destruct (configure_message_sets_options reference_worker
                {| action := JsString "configure-runtime-caching"; path := None;
                   options := OptionsObject {| opt_maxEntries := JsNumber 50;
                                               opt_maxAgeSeconds := JsUndefined |} |}
                initial_world foo_plain eq_refl) as [_ Hset].
    destruct (Hset _ eq_refl eq_refl eq_refl) as (_ & Hopts & _). exact Hopts.
Defined.

(** X5.  The message listener has no handler of its own for exceptions.
    For a message other than "configure-runtime-caching" it throws only for
    "cache-state" (the [ReferenceError]) or when [prefetch],
    [abortPrefetches] or [resumePrefetches], called for a "cache-path",
    "abort-prefetches" or "resume-prefetches" message, throws; the exception
    is then the listener's. *)
Theorem message_listener_throws_only_when
    (E : Collaborators) (data : EventData) (w w' : World) (e : JsError) :
  on_message E data w = (w', Throw e) ->
  exists d, data = DataObject d /\
    (action d = JsString "configure-runtime-caching" \/
     (action d = JsString "cache-state" /\ e = ReferenceError "cacheState") \/
     (action d = JsString "cache-path" /\ prefetch E d false (prefetchQueue w) = Throw e) \/
     (action d = JsString "abort-prefetches" /\ abortPrefetches E (prefetchQueue w) = Throw e) \/
     (action d = JsString "resume-prefetches" /\ resumePrefetches E (prefetchQueue w) = Throw e)).
Proof.
  destruct data as [v|d]; cbn; [discriminate|].
  intros H. exists d. split; [reflexivity|].
  destruct (truthy (action d)); [|discriminate].
  destruct (action d) as [| |b|n|s|] eqn:Ha; cbn in H; try discriminate.
  destruct (String.eqb_spec s "cache-path") as [->|_].
  { right; right; left. split; [reflexivity|]. cbn in H. unfold call_prefetch in H.
    cbn in H. destruct (prefetch E d false (prefetchQueue w)); cbn in H; congruence. }
  destruct (String.eqb_spec s "cache-state") as [->|_].
  { right; left. split; [reflexivity|]. cbn in H. congruence. }
  destruct (String.eqb_spec s "configure-runtime-caching") as [->|_]; [left; reflexivity|].
  destruct (String.eqb_spec s "abort-prefetches") as [->|_].
  { right; right; right; left. split; [reflexivity|]. cbn in H.
    destruct (abortPrefetches E (prefetchQueue w)); cbn in H; congruence. }
  destruct (String.eqb_spec s "resume-prefetches") as [->|_]; [|discriminate].
  right; right; right; right. split; [reflexivity|]. cbn in H.
  destruct (resumePrefetches E (prefetchQueue w)); cbn in H; congruence.
Qed.

Lemma message_listener_throws_only_when_witness :
  exists d,
    DataObject {| action := JsString "cache-path"; path := Some "/p";
                  options := OptionsUndefined |}
    = DataObject d /\
    (action d = JsString "configure-runtime-caching" \/
     (action d = JsString "cache-state" /\
      OtherError "prefetch failed" = ReferenceError "cacheState") \/
     (action d = JsString "cache-path" /\
      prefetch faulty_worker d false (prefetchQueue initial_world)
      = Throw (OtherError "prefetch failed")) \/
     (action d = JsString "abort-prefetches" /\
      abortPrefetches faulty_worker (prefetchQueue initial_world)
      = Throw (OtherError "prefetch failed")) \/
     (action d = JsString "resume-prefetches" /\
      resumePrefetches faulty_worker (prefetchQueue initial_world)
      = Throw (OtherError "prefetch failed"))).
Proof.
  eapply (message_listener_throws_only_when faulty_worker
            (DataObject {| action := JsString "cache-path"; path := Some "/p";
                           options := OptionsUndefined |})
            initial_world).
  reflexivity.
Defined.

(** ** The install listener *)

Lemma sweep_frame (keys : list string) (w : World) :
  runtimeCacheOptions (sweep keys w) = runtimeCacheOptions w /\
  prefetchQueue (sweep keys w) = prefetchQueue w /\
  pending (sweep keys w) = pending w /\
  trace (sweep keys w) = (trace w ++ List.map EvCacheDelete (List.filter untagged keys))%list.
Proof.
  revert w. induction keys as [|key rest IH]; intros w; cbn [sweep List.filter List.map].
  - rewrite app_nil_r. repeat split; reflexivity.
  - unfold untagged at 1. destruct (negb (startsWith key "workbox-precache")).
    + destruct (IH (log_event (EvCacheDelete key) (set_caches (delete key (caches w)) w)))
        as (Ho & Hq & Hp & Ht).
      rewrite Ho, Hq, Hp, Ht. cbn. rewrite <- app_assoc. repeat split; reflexivity.
    + apply IH.
Qed.

Lemma on_install_lookup (w : World) (name : string) :
  caches (on_install w) !! name =
    if startsWith name "workbox-precache" then caches w !! name else None.
Proof.
  unfold on_install, caches_keys.
  destruct (startsWith name "workbox-precache") eqn:Htag.
  - apply sweep_keeps_tagged, Htag.
  - destruct (caches w !! name) as [c|] eqn:Hc.
    + apply sweep_deletes_untagged; [exact Htag|].
      apply elem_of_elements, elem_of_dom. rewrite Hc. eauto.
    + apply sweep_keeps_missing, Hc.
Qed.

Lemma sweep_keeps_unlisted (keys : list string) (w : World) (name : string) :
  name ∉ keys ->
  caches (sweep keys w) !! name = caches w !! name.
Proof.
  revert w. induction keys as [|key rest IH]; intros w Hnot; cbn [sweep].
  - reflexivity.
  - apply not_elem_of_cons in Hnot as [Hne Hrest].
    destruct (startsWith key "workbox-precache"); cbn [negb].
    + apply IH, Hrest.
    + rewrite (IH _ Hrest). cbn. apply lookup_delete_ne. congruence.
Qed.

Lemma sweep_lookup (keys : list string) (w : World) (name : string) :
  caches (sweep keys w) !! name =
    if untagged name && bool_decide (name ∈ keys) then None else caches w !! name.
Proof.
  unfold untagged. destruct (startsWith name "workbox-precache") eqn:Htag; cbn [negb andb].
  - apply sweep_keeps_tagged, Htag.
  - case_bool_decide as Hin.
    + apply sweep_deletes_untagged; assumption.
    + apply sweep_keeps_unlisted, Hin.
Qed.

(** Cache Storage after a sweep does not depend on the order in which the
    names are listed, nor on repetitions. *)
Lemma sweep_any_order (keys keys' : list string) (w : World) :
  (forall k, k ∈ keys <-> k ∈ keys') ->
  caches (sweep keys w) = caches (sweep keys' w).
Proof.
  intros Hsame. apply map_eq. intros name. rewrite !sweep_lookup.
  destruct (untagged name); [|reflexivity]. cbn [andb].
  pose proof (Hsame name) as [Hto Hfrom].
  repeat case_bool_decide; try reflexivity; exfalso; auto.
Qed.

Lemma NoDup_list_filter {A} (f : A -> bool) (l : list A) :
  NoDup l -> NoDup (List.filter f l).
Proof.
  induction l as [|a l IH]; intros Hnd; cbn [List.filter]; [constructor|].
  apply NoDup_cons in Hnd as [Hnot Hnd].
  destruct (f a); [|apply IH, Hnd].
  apply NoDup_cons. split; [|apply IH, Hnd].
  intros Hin. apply Hnot. apply list_elem_of_In in Hin. apply List.filter_In in Hin as [Hin _].
  apply list_elem_of_In. exact Hin.
Qed.

(** X6.  Whatever the order in which [caches.keys()] lists the existing
    cache names, the sweep asks for the deletion of the caches without the
    precache tag, one after the other in that order, each once, and of no
    cache with the tag; it leaves the caching configuration, the prefetch
    queue and the outstanding detached writes as they are, and the Cache
    Storage it leaves does not depend on the order. *)
Theorem install_sweep_deletes_each_untagged_once (keys : list string) (w : World) :
  trace (sweep keys w) =
    (trace w ++ List.map EvCacheDelete (List.filter untagged keys))%list /\
  (NoDup keys -> NoDup (List.filter untagged keys)) /\
  runtimeCacheOptions (sweep keys w) = runtimeCacheOptions w /\
  prefetchQueue (sweep keys w) = prefetchQueue w /\
  pending (sweep keys w) = pending w /\
  ((forall k, k ∈ keys <-> is_Some (caches w !! k)) ->
   caches (sweep keys w) = caches (on_install w)).
Proof.
  destruct (sweep_frame keys w) as (Ho & Hq & Hp & Ht).
  repeat split; try assumption.
  - apply NoDup_list_filter.
  - intros Hall. unfold on_install. apply sweep_any_order. intros k.
    rewrite Hall. unfold caches_keys. rewrite elem_of_elements, elem_of_dom. reflexivity.
Qed.

Lemma install_sweep_deletes_each_untagged_once_witness :
  NoDup (List.filter untagged ["api-v0"; "offlineCache"; "workbox-precache-v2-x"]) /\
  caches (sweep (caches_keys world_with_old_caches) world_with_old_caches)
  = caches (on_install world_with_old_caches).
Proof.
  split.
  - apply (install_sweep_deletes_each_untagged_once
             ["api-v0"; "offlineCache"; "workbox-precache-v2-x"] world_with_old_caches).
    apply (bool_decide_unpack _). vm_compute. exact I.
  - apply (install_sweep_deletes_each_untagged_once
             (caches_keys world_with_old_caches) world_with_old_caches).
    intros k. unfold caches_keys. rewrite elem_of_elements, elem_of_dom. reflexivity.
Defined.

Lemma filter_none {A} (f : A -> bool) (l : list A) :
  (forall x, In x l -> f x = false) -> List.filter f l = [].
Proof.
  induction l as [|a l IH]; intros H; cbn [List.filter]; [reflexivity|].
  rewrite (H a (or_introl eq_refl)). apply IH. intros x Hx. apply H. right. exact Hx.
Qed.

(** X7.  Sweeping again changes nothing: after one sweep a second one finds
    only tagged caches. *)
Theorem install_sweep_idempotent (w : World) :
  caches (on_install (on_install w)) = caches (on_install w) /\
  trace (on_install (on_install w)) = trace (on_install w).
Proof.
  split.
  - apply map_eq. intros name. rewrite !on_install_lookup.
    destruct (startsWith name "workbox-precache"); reflexivity.
  - unfold on_install at 1.
    destruct (sweep_frame (caches_keys (on_install w)) (on_install w)) as (_ & _ & _ & ->).
    replace (List.filter untagged (caches_keys (on_install w))) with (@nil string).
    { apply app_nil_r. }
    symmetry. apply filter_none. intros key Hin. unfold untagged.
    destruct (startsWith key "workbox-precache") eqn:Htag; [reflexivity|].
    exfalso. unfold caches_keys in Hin.
    apply list_elem_of_In, elem_of_elements, elem_of_dom in Hin as [c Hc].
    rewrite on_install_lookup, Htag in Hc. discriminate.
Qed.

(** X8.  The sweep spares no runtime cache: unless [getAPICacheName] gives
    a name with the precache tag, the versioned cache of any request, the one
    of the release in use included, is gone after the sweep, so [CacheOnly]
    has nothing for that request; and the cache "offlineCache" of the
    [NetworkFirst] route is gone as well. *)
Theorem install_sweep_wipes_runtime_caches
    (E : Collaborators) (context : Context) (w : World) :
  startsWith (getAPICacheName E (apiVersion_of context)) "workbox-precache" = false ->
  usable_entry E (cacheOptions_of E context (on_install w)) context (on_install w) = None /\
  caches (on_install w) !! "offlineCache" = None.
Proof.
  intros Htag. split.
  - unfold usable_entry, cache_match, cacheOptions_of. cbn [cacheName co_plugins].
    rewrite on_install_lookup, Htag. reflexivity.
  - rewrite on_install_lookup. reflexivity.
Qed.

Lemma install_sweep_wipes_runtime_caches_witness :
  usable_entry reference_worker
    (cacheOptions_of reference_worker foo_plain world_after_foo_red)
    foo_plain world_after_foo_red = Some (sample_response foo_red) /\
  usable_entry reference_worker
    (cacheOptions_of reference_worker foo_plain (on_install world_after_foo_red))
    foo_plain (on_install world_after_foo_red) = None.
Proof.
  split; [reflexivity|].
  apply (install_sweep_wipes_runtime_caches reference_worker foo_plain world_after_foo_red).
  reflexivity.
Defined.

Lemma for_each_unbound (E : Collaborators) (paths : list string) (w : World) :
  for_each
    (fun p w' =>
       call E "cachePath" {| action := JsUndefined; path := Some p; options := OptionsUndefined |} w')
    paths w
  = (w, match paths with
        | [] => Normal tt
        | _ :: _ => Throw (ReferenceError "cachePath")
        end).
Proof. destruct paths; reflexivity. Qed.

(** X9.  The AMP warm-up of the install listener never prefetches: it
    calls [cachePath], a name bound nowhere in the module.  With no open
    client whose URL matches the AMP pattern it does nothing; with one or
    more its promise rejects with a [ReferenceError] at the first of them,
    and the worker state is left as it was. *)
Theorem install_warmup_never_prefetches
    (E : Collaborators) (strip : string -> string) (allClients : list Client) (w : World) :
  install_warmup E strip allClients w =
    (w, if existsb (fun c => IS_AMP_REGEX E (client_url c)) allClients
        then Rejected (ReferenceError "cachePath")
        else Resolved tt).
Proof.
  unfold install_warmup. rewrite for_each_unbound.
  induction allClients as [|c rest IH]; cbn [List.filter List.map existsb].
  - reflexivity.
  - destruct (IS_AMP_REGEX E (client_url c)); cbn [List.map orb]; [reflexivity | exact IH].
Qed.

(** ** The runtime route handler: all branches *)

Lemma handler_frame (E : Collaborators) (context : Context) (w : World) :
  caches (fst (handler E context w)) = caches w /\
  runtimeCacheOptions (fst (handler E context w)) = runtimeCacheOptions w.
Proof.
  pose proof (amp_step_frame E context w) as (Hc & Ho & _).
  destruct (handler_cases E context w)
    as [(w1 & e & Hamp & ->) | [(w1 & Hamp & _ & ->) | [(w1 & Hamp & _ & _ & ->)
       | (w1 & v & Hamp & _ & _ & _ & ->)]]];
    rewrite Hamp in Hc, Ho; cbn [fst] in Hc, Ho.
  - pose proof (NetworkOnly_frame E context (log_event EvWarn w1)) as (Hc' & Ho' & _).
    destruct (NetworkOnly_handle E context (log_event EvWarn w1)). cbn [fst] in *.
    rewrite Hc', Ho'. split; assumption.
  - split; assumption.
  - pose proof (NetworkOnly_frame E context w1) as (Hc' & Ho' & _).
    destruct (NetworkOnly_handle E context w1). cbn [fst] in *.
    rewrite Hc', Ho'. split; assumption.
  - unfold versioned_outcome.
    destruct (usable_entry _ _ _ _); [cbn; split; assumption|].
    destruct (fetch_network E context) as [r|e0]; [|cbn; split; assumption].
    destruct (truthy_header _); cbn; split; assumption.
Qed.

(** When the handler schedules a detached write, and which. *)
Lemma handler_pending (E : Collaborators) (context : Context) (w : World) :
  pending (fst (handler E context w)) = pending w \/
  exists v r apiRes,
    apiVersion_of context = Some v /\ v <> "" /\
    only_if_cached_bypass (request context) = false /\
    snd (amp_step E context w) = Normal tt /\
    usable_entry E (cacheOptions_of E context w) context w = None /\
    fetch_network E context = Resolved r /\
    truthy_header (headers_get (resp_headers r) "x-sw-cache-control") = true /\
    obj_response apiRes = r /\
    body_unread (fst (handler E context w)) apiRes = true /\
    pending (fst (handler E context w)) =
      (pending w ++
       [JobCachePut (getAPICacheName E (Some v)) (pathname (url context)) apiRes])%list.
Proof.
  pose proof (amp_step_frame E context w) as (Hc & Ho & _ & _ & Hp & _).
  destruct (handler_cases E context w)
    as [(w1 & e & Hamp & ->) | [(w1 & Hamp & _ & ->) | [(w1 & Hamp & _ & _ & ->)
       | (w1 & v & Hamp & Hby & Hv & Hne & ->)]]];
    rewrite Hamp in Hc, Ho, Hp; cbn [fst] in Hc, Ho, Hp.
  - left. pose proof (NetworkOnly_frame E context (log_event EvWarn w1)) as (_ & _ & Hp' & _).
    destruct (NetworkOnly_handle E context (log_event EvWarn w1)). cbn [fst] in *.
    rewrite Hp'. exact Hp.
  - left. exact Hp.
  - left. pose proof (NetworkOnly_frame E context w1) as (_ & _ & Hp' & _).
    destruct (NetworkOnly_handle E context w1). cbn [fst] in *. rewrite Hp'. exact Hp.
  - unfold versioned_outcome.
    destruct (usable_entry E (cacheOptions_of E context w1) context w1) as [r0|] eqn:Hu;
      [left; exact Hp|].
    destruct (fetch_network E context) as [r|e0] eqn:Hnet; [|left; exact Hp].
    destruct (truthy_header (headers_get (resp_headers r) "x-sw-cache-control")) eqn:Hsig;
      [|left; exact Hp].
    right. exists v, r.
    exists (fst (new_response r
                   (log_event (EvNetwork (href (url context)))
                      (log_event (EvCacheLookup (getAPICacheName E (Some v))
                                    (href (url context))) w1)))).
    rewrite Hamp.
    rewrite <- (usable_entry_ext E context w1 w Hc Ho).
    repeat split; try eassumption; try reflexivity.
    + unfold body_unread. cbn. rewrite lookup_insert_ne by lia.
      rewrite lookup_insert_eq. reflexivity.
    + cbn. rewrite Hp. reflexivity.
Qed.

(** A detached write changes nothing but the entry it is for. *)
Lemma run_job_other (E : Collaborators) (name p : string) (res : ResponseObj) (w : World)
    (name' : string) (key' : string * string) :
  name' <> name \/ put_key E p <> Some key' ->
  (caches (run_job E (JobCachePut name p res) w) !! name'
     ≫= (fun entries => entries !! key'))
  = (caches w !! name' ≫= (fun entries => entries !! key')).
Proof.
  intros Hother. unfold run_job, cache_put, caches_open.
  assert (forall w0 : World,
             caches w0 !! name' ≫= (fun entries => entries !! key')
             = caches w !! name' ≫= (fun entries => entries !! key') ->
             body_unread w0 res = body_unread w res ->
             caches
               (match put_key E p with
                | Some key =>
                    if negb (put_refused (obj_response res)) && body_unread w0 res then
                      set_bodyUsed (<[obj_id res := true]> (bodyUsed w0))
                        (set_caches
                           (<[name := <[key := obj_response res]>
                                        (default ∅ (caches w0 !! name))]> (caches w0)) w0)
                    else w0
                | None => w0
                end) !! name' ≫= (fun entries => entries !! key')
             = caches w !! name' ≫= (fun entries => entries !! key')) as Hput.
  { intros w0 Hsame _. destruct (put_key E p) as [key|] eqn:Hkey; [|exact Hsame].
    destruct (negb (put_refused (obj_response res)) && body_unread w0 res);
      [|exact Hsame].
    cbn. destruct (decide (name' = name)) as [-> | Hn].
    - destruct Hother as [? | Hk]; [congruence|].
      rewrite lookup_insert_eq. cbn. rewrite lookup_insert_ne by congruence.
      rewrite <- Hsame. destruct (caches w0 !! name); reflexivity.
    - rewrite lookup_insert_ne by congruence. exact Hsame. }
  destruct (caches w !! name) as [c|] eqn:Hc; cbn.
  - apply Hput; reflexivity.
  - apply Hput; [|reflexivity]. cbn.
    destruct (decide (name' = name)) as [-> | Hn].
    + rewrite lookup_insert_eq, Hc. reflexivity.
    + rewrite lookup_insert_ne by congruence. reflexivity.
Qed.

Lemma handler_write_local (E : Collaborators) (context : Context) (w : World)
    (name' : string) (key' : string * string) :
  pending w = [] ->
  name' <> getAPICacheName E (apiVersion_of context) \/
  put_key E (pathname (url context)) <> Some key' ->
  (caches (run_pending E (fst (handler E context w))) !! name'
     ≫= (fun entries => entries !! key'))
  = (caches w !! name' ≫= (fun entries => entries !! key')).
Proof.
  intros Hpend Hother.
  destruct (handler_frame E context w) as [Hc _].
  unfold run_pending.
  destruct (handler_pending E context w)
    as [Hp | (v & r & apiRes & Hv & _ & _ & _ & _ & _ & _ & _ & _ & Hp)];
    rewrite Hp, Hpend.
  - cbn. rewrite Hc. reflexivity.
  - cbn [app fold_left]. rewrite Hv in Hother. rewrite run_job_other by exact Hother.
    cbn. rewrite Hc. reflexivity.
Qed.

(** X11.  The handler schedules at most one detached cache write per
    request, and only on one path: a non-empty API version, no only-if-cached
    exit, the prefetch call returned, nothing usable in the cache, and a
    network answer with a non-empty [x-sw-cache-control] header.  The write
    is then for the cache named for the version, under [url.pathname], of the
    very response object the network gave, whose body is still unread.  A
    cache hit, an offline fallback, a request without version and a network
    pass-through after an exception schedule nothing. *)
Theorem cache_write_scheduled_only_for_cacheable_answer
    (E : Collaborators) (context : Context) (w : World) :
  pending (fst (handler E context w)) = pending w \/
  exists v r apiRes,
    apiVersion_of context = Some v /\ v <> "" /\
    only_if_cached_bypass (request context) = false /\
    snd (amp_step E context w) = Normal tt /\
    usable_entry E (cacheOptions_of E context w) context w = None /\
    fetch_network E context = Resolved r /\
    truthy_header (headers_get (resp_headers r) "x-sw-cache-control") = true /\
    obj_response apiRes = r /\
    body_unread (fst (handler E context w)) apiRes = true /\
    pending (fst (handler E context w)) =
      (pending w ++
       [JobCachePut (getAPICacheName E (Some v)) (pathname (url context)) apiRes])%list.
Proof. exact (handler_pending E context w). Qed.

(** X12.  A network answer without [x-sw-cache-control], or with an empty
    one, is handed to the caller as it is and is not cached: no write is
    scheduled for it. *)
Theorem uncacheable_answer_is_not_stored
    (E : Collaborators) (context : Context) (w : World) (v : string) (r : Response) :
  apiVersion_of context = Some v -> v <> "" ->
  only_if_cached_bypass (request context) = false ->
  snd (amp_step E context w) = Normal tt ->
  usable_entry E (cacheOptions_of E context w) context w = None ->
  fetch_network E context = Resolved r ->
  truthy_header (headers_get (resp_headers r) "x-sw-cache-control") = false ->
  settled_content (snd (handler E context w)) = Resolved (Some r) /\
  pending (fst (handler E context w)) = pending w.
Proof.
  intros Hv Hne Hby Hamp Hmiss Hnet Hsig.
  destruct (amp_step E context w) as [w1 c] eqn:Hstep. cbn [snd] in Hamp. subst c.
  pose proof (amp_step_frame E context w) as (Hc & Ho & _ & _ & Hp & _).
  rewrite Hstep in Hc, Ho, Hp. cbn [fst] in Hc, Ho, Hp.
  rewrite (handler_versioned E context w w1 v Hv Hne Hby Hstep).
  rewrite <- (usable_entry_ext E context w1 w Hc Ho) in Hmiss.
  unfold versioned_outcome. rewrite Hmiss, Hnet, Hsig. cbn.
  repeat split; assumption.
Qed.

Lemma uncacheable_answer_is_not_stored_witness :
  settled_content (snd (handler uncacheable_worker foo_plain initial_world))
  = Resolved (Some plain_response) /\
  pending (fst (handler uncacheable_worker foo_plain initial_world)) = [].
Proof.
  apply (uncacheable_answer_is_not_stored uncacheable_worker foo_plain initial_world "v1"
           plain_response);
    solve [reflexivity | discriminate].
Defined.

(** X13.  An [x-rsf-api-version] header that is present but empty counts
    as no version: unless the request takes the only-if-cached exit, the
    handler makes no cache lookup, schedules no write and settles as the
    network does, so a network failure is a rejection and not the offline
    fallback. *)
Theorem empty_version_header_is_no_version
    (E : Collaborators) (context : Context) (w : World) :
  apiVersion_of context = Some "" ->
  only_if_cached_bypass (request context) = false ->
  settled_content (snd (handler E context w)) = pass_through E context /\
  events_where is_cache_lookup (fst (handler E context w)) = events_where is_cache_lookup w /\
  pending (fst (handler E context w)) = pending w.
Proof.
  intros Hv Hby.
  pose proof (amp_step_frame E context w) as (_ & _ & _ & _ & Hp & Ht).
  destruct (handler_cases E context w)
    as [(w1 & e & Hamp & ->) | [(w1 & Hamp & Hby' & _) | [(w1 & Hamp & _ & _ & ->)
       | (w1 & v & Hamp & _ & Hv' & Hne & _)]]];
    try congruence; rewrite Hamp in Hp, Ht; cbn [fst] in Hp, Ht.
  - unfold NetworkOnly_handle, pass_through.
    destruct (fetch_network E context); cbn; repeat split; try assumption; trace_eq Ht.
  - unfold NetworkOnly_handle, pass_through.
    destruct (fetch_network E context); cbn; repeat split; try assumption; trace_eq Ht.
Qed.

Lemma empty_version_header_is_no_version_witness :
  settled_content
    (snd (handler reference_worker
            (sample_context "/down" "" (Some "") "default" "cors") initial_world))
  = Rejected (TypeError "Failed to fetch").
Proof.
  apply (empty_version_header_is_no_version reference_worker
           (sample_context "/down" "" (Some "") "default" "cors") initial_world);
    reflexivity.
Defined.

(** X14.  Handling a request that is not an AMP request (so that no
    prefetch is started) and letting its detached write run changes at most
    one entry of Cache Storage: the one under the URL that the request's
    [url.pathname] resolves to against the worker's location, in the cache
    named for the request's version.  Every other entry, in that cache or in
    the cache of any other version, reads as before; and when the pathname
    does not resolve to a URL nothing changes at all. *)
Theorem write_touches_one_entry
    (E : Collaborators) (context : Context) (w : World)
    (name' : string) (key' : string * string) :
  isAmp E (url context) = false ->
  pending w = [] ->
  name' <> getAPICacheName E (apiVersion_of context) \/
  put_key E (pathname (url context)) <> Some key' ->
  (caches (run_pending E (fst (handler E context w))) !! name'
     ≫= (fun entries => entries !! key'))
  = (caches w !! name' ≫= (fun entries => entries !! key')).
Proof. intros _. exact (handler_write_local E context w name' key'). Qed.

Lemma write_touches_one_entry_witness :
  (caches (run_pending reference_worker
             (fst (handler reference_worker foo_red initial_world))) !! "api-v2"
     ≫= (fun entries => entries !! ("https://shop.example/foo", "")))
  = (caches initial_world !! "api-v2"
       ≫= (fun entries => entries !! ("https://shop.example/foo", ""))).
Proof.
  apply (write_touches_one_entry reference_worker foo_red initial_world "api-v2"
           ("https://shop.example/foo", "")).
  - reflexivity.
  - reflexivity.
  - left. discriminate.
Defined.


